(** * chatbot.py: messages, recipient validation and channel dispatch

    A shallow embedding of [src/chatbot.py].  Python [str] values are
    sequences of Unicode code points; the built-in string methods the program
    calls ([strip], [startswith], [replace], [isdigit], [len], [repr]) are
    written out over that representation.  [print] is modelled by the list of
    lines written to standard output, exceptions by an error result.  A
    [print] that fails and the signals outside the class [Exception]
    ([KeyboardInterrupt], [SystemExit]) are not part of the model; the
    interactive menu of [main] is not either. *)

From Stdlib Require Import NArith ZArith Ascii String List Bool Lia.
From stdpp Require Import base option list strings gmap fin_maps pretty.

Open Scope N_scope.

(** ** Python strings *)

(** A [str] is a sequence of code points. *)
Abbreviation pystr := (list N).

Module Utf8.

(** The source file is UTF-8; a literal is decoded to its code points. *)
Fixpoint decode (acc : N) (need : nat) (bs : list N) : pystr :=
  match bs with
  | [] => []
  | b :: bs' =>
      match need with
      | O =>
          if b <? 128 then b :: decode 0 0%nat bs'
          else if b <? 224 then decode (b - 192) 1%nat bs'
          else if b <? 240 then decode (b - 224) 2%nat bs'
          else decode (b - 240) 3%nat bs'
      | S O => (acc * 64 + (b - 128)) :: decode 0 0%nat bs'
      | S n => decode (acc * 64 + (b - 128)) n bs'
      end
  end.

Fixpoint bytes (s : string) : list N :=
  match s with
  | EmptyString => []
  | String a s' => N_of_ascii a :: bytes s'
  end.

End Utf8.

(** [py "..."] is the Python string written by the literal. *)
Definition py (s : string) : pystr := Utf8.decode 0 0%nat (Utf8.bytes s).
Arguments py : simpl never.

(** Unicode data the interpreter ships and the program relies on through
    [str.isdigit] and [repr].  The tables are fixed below for the code points
    this development evaluates on (Latin-1 for digits, ASCII for printable
    characters); beyond that they are a parameter of the development. *)
Class UnicodeData := {
  digit_above_latin1 : N -> bool;
  printable_above_ascii : N -> bool
}.

Module Py.

(** Code points that [str.strip()] removes: the characters for which
    [str.isspace] holds. *)
Definition isspace_char (c : N) : bool :=
  ((9 <=? c) && (c <=? 13)) || ((28 <=? c) && (c <=? 32))
  || (c =? 133) || (c =? 160) || (c =? 5760)
  || ((8192 <=? c) && (c <=? 8202))
  || (c =? 8232) || (c =? 8233) || (c =? 8239) || (c =? 8287)
  || (c =? 12288).

(** [c.isdigit()] for one character: Numeric_Type Decimal or Digit.  Below
    U+0100 these are 0-9 and the superscripts U+00B2, U+00B3, U+00B9. *)
Definition isdigit_char `{UnicodeData} (c : N) : bool :=
  if c <? 256
  then ((48 <=? c) && (c <=? 57)) || (c =? 178) || (c =? 179) || (c =? 185)
  else digit_above_latin1 c.

(** [c.isprintable()] for one character. *)
Definition isprintable_char `{UnicodeData} (c : N) : bool :=
  if c <? 128 then (32 <=? c) && (c <? 127) else printable_above_ascii c.

Fixpoint lstrip (s : pystr) : pystr :=
  match s with
  | [] => []
  | c :: s' => if isspace_char c then lstrip s' else s
  end.

Definition rstrip (s : pystr) : pystr := rev (lstrip (rev s)).

(** [s.strip()] *)
Definition strip (s : pystr) : pystr := rstrip (lstrip s).

(** [s.startswith(p)] *)
Fixpoint startswith (s p : pystr) : bool :=
  match p, s with
  | [], _ => true
  | _ :: _, [] => false
  | a :: p', b :: s' => (a =? b) && startswith s' p'
  end.

(** [s.replace(old, new)] for a one-character [old]. *)
Definition replace (s : pystr) (old : N) (new : pystr) : pystr :=
  flat_map (fun c => if c =? old then new else [c]) s.

(** [s.isdigit()]: every character is a digit and there is at least one. *)
Definition isdigit `{UnicodeData} (s : pystr) : bool :=
  match s with
  | [] => false
  | _ => forallb isdigit_char s
  end.

(** [len(s)] *)
Definition len (s : pystr) : Z := Z.of_nat (length s).

(** [s[1:]] *)
Definition slice_from_1 (s : pystr) : pystr := tail s.

Definition hex_digit (d : N) : N := if d <? 10 then 48 + d else 87 + d.

Fixpoint hex_fixed (width : nat) (c : N) : pystr :=
  match width with
  | O => []
  | S w => hex_fixed w (c / 16) ++ [hex_digit (c mod 16)]
  end.

Definition apostrophe : N := 39.
Definition dquote : N := 34.
Definition backslash : N := 92.

Definition repr_char `{UnicodeData} (quote c : N) : pystr :=
  if (c =? quote) || (c =? backslash) then [backslash; c]
  else if c =? 9 then backslash :: py "t"
  else if c =? 10 then backslash :: py "n"
  else if c =? 13 then backslash :: py "r"
  else if (c <? 32) || (c =? 127) then backslash :: py "x" ++ hex_fixed 2 c
  else if isprintable_char c then [c]
  else if c <? 256 then backslash :: py "x" ++ hex_fixed 2 c
  else if c <? 65536 then backslash :: py "u" ++ hex_fixed 4 c
  else backslash :: py "U" ++ hex_fixed 8 c.

Definition mem (c : N) (s : pystr) : bool := existsb (N.eqb c) s.

(** [repr(s)]: single quotes unless the string has a single quote and no
    double quote; the quote, the backslash and unprintable characters are
    escaped. *)
Definition repr `{UnicodeData} (s : pystr) : pystr :=
  let quote := if mem apostrophe s && negb (mem dquote s)
               then dquote else apostrophe in
  quote :: flat_map (repr_char quote) s ++ [quote].

End Py.

(** A table that knows no digit and no printable character beyond the fixed
    ranges; closed examples are evaluated with it. *)
Definition basic_tables : UnicodeData :=
  {| digit_above_latin1 := fun _ => false;
     printable_above_ascii := fun _ => false |}.

(** ** Values, exceptions and the effects of the program *)

(** What a metadata dictionary holds: strings and the integer duration. *)
Inductive value :=
  | VStr (s : pystr)
  | VInt (z : Z).

#[global] Instance value_eq_dec : EqDecision value.
Proof. solve_decision. Defined.

(** [str(v)], as an f-string field renders a value. *)
Definition str_of_value (v : value) : pystr :=
  match v with
  | VStr s => s
  | VInt z => py (pretty z)
  end.

(** An f-string field holding the result of [dict.get]: a missing key gives
    [None], rendered as the word None. *)
Definition str_of_get (o : option value) : pystr :=
  match o with
  | Some v => str_of_value v
  | None => py "None"
  end.

(** The exceptions of class [Exception], each with its [str(e)]. *)
Inductive exn :=
  | InvalidRecipientError (msg : pystr)
  | UnsupportedMessageError (msg : pystr)
  | OtherException (msg : pystr).

(** A computation writes lines to standard output and then either returns or
    raises. *)
Definition M (A : Type) : Type := list pystr * (exn + A).

Definition ret {A} (a : A) : M A := ([], inr a).

Definition bind {A B} (m : M A) (k : A -> M B) : M B :=
  match m with
  | (out, inl e) => (out, inl e)
  | (out, inr a) => let '(out', r) := k a in (out ++ out', r)
  end.

Definition raise {A} (e : exn) : M A := ([], inl e).

(** [print(line)] *)
Definition print (line : pystr) : M unit := ([line], inr tt).

(** [try: body / except ... as e: handler(e)] over the class [Exception]. *)
Definition try_except {A} (body : M A) (handler : exn -> M A) : M A :=
  match body with
  | (out, inl e) => let '(out', r) := handler e in (out ++ out', r)
  | (out, inr a) => (out, inr a)
  end.

Declare Scope py_scope.
Delimit Scope py_scope with py.
Notation "'let!' x ':=' m 'in' k" := (bind m (fun x => k))
  (at level 10, x name, m at level 100, k at level 200) : py_scope.
Notation "m ;; k" := (bind m (fun _ => k))
  (at level 100, k at level 200, right associativity) : py_scope.

(** The standard output of a run. *)
Definition stdout {A} (m : M A) : list pystr := fst m.

Open Scope py_scope.

(** ** Messages *)

(** A [datetime.datetime] value. *)
Record datetime := {
  year : N; month : N; day : N;
  hour : N; minute : N; second : N; microsecond : N
}.

(** The fields declared by the dataclass [Message]. *)
Record Message_fields := {
  _text : pystr;
  _send_date : datetime
}.

(** The attributes [MediaMessage.__init__] adds. *)
Record Media_fields := {
  _file_path : pystr;
  _format : pystr;
  _duration_seconds : option Z
}.

(** An instance of one of the four concrete message classes. *)
Inductive Message :=
  | TextObj (base : Message_fields)
  | MediaObj (base : Message_fields) (media : Media_fields)
  | PhotoObj (base : Message_fields) (media : Media_fields)
  | FileObj (base : Message_fields) (media : Media_fields).

(** The generated [Message.__init__] followed by [__post_init__]; [now] is
    what [datetime.now()] answers at that moment. *)
Definition Message_init (now : datetime) (text : pystr)
    (send_date : option datetime) : Message_fields :=
  {| _text := text;
     _send_date := match send_date with
                   | None => now
                   | Some d => d
                   end |}.

(** [MediaMessage.__init__]: the base constructor gets the text only. *)
Definition MediaMessage_init (now : datetime) (message file_path format : pystr)
    (duration_seconds : option Z) : Message_fields * Media_fields :=
  (Message_init now message None,
   {| _file_path := file_path;
      _format := format;
      _duration_seconds := duration_seconds |}).

Definition TextMessage (now : datetime) (text : pystr)
    (send_date : option datetime) : Message :=
  TextObj (Message_init now text send_date).

Definition MediaMessage (now : datetime) (message file_path format : pystr)
    (duration_seconds : option Z) : Message :=
  let '(b, m) := MediaMessage_init now message file_path format duration_seconds in
  MediaObj b m.

Definition PhotoMessage (now : datetime) (message file_path format : pystr)
    : Message :=
  let '(b, m) := MediaMessage_init now message file_path format None in
  PhotoObj b m.

Definition FileMessage (now : datetime) (message file_path format : pystr)
    : Message :=
  let '(b, m) := MediaMessage_init now message file_path format None in
  FileObj b m.

Definition base_of (m : Message) : Message_fields :=
  match m with
  | TextObj b | MediaObj b _ | PhotoObj b _ | FileObj b _ => b
  end.

(** The properties [text] and [send_date]. *)
Definition text (m : Message) : pystr := _text (base_of m).
Definition send_date (m : Message) : datetime := _send_date (base_of m).

(** The media attributes of an instance, when its class has them. *)
Definition media_of (m : Message) : option Media_fields :=
  match m with
  | TextObj _ => None
  | MediaObj _ md | PhotoObj _ md | FileObj _ md => Some md
  end.

(** A Python [dict] with string keys. *)
Abbreviation dict := (gmap string value).

Definition TextMessage_metadata (b : Message_fields) : dict :=
  {[ "type" := VStr (py "text"); "text" := VStr (_text b) ]}.

Definition MediaMessage_metadata (b : Message_fields) (md : Media_fields) : dict :=
  let meta : dict :=
    {[ "type" := VStr (py "media");
       "text" := VStr (_text b);
       "file_path" := VStr (_file_path md);
       "format" := VStr (_format md) ]} in
  match _duration_seconds md with
  | Some d => <["duration_seconds" := VInt d]> meta
  | None => meta
  end.

Definition PhotoMessage_metadata (b : Message_fields) (md : Media_fields) : dict :=
  let meta := MediaMessage_metadata b md in
  let meta := <["type" := VStr (py "photo")]> meta in
  delete "duration_seconds" meta.

Definition FileMessage_metadata (b : Message_fields) (md : Media_fields) : dict :=
  let meta := MediaMessage_metadata b md in
  let meta := <["type" := VStr (py "file")]> meta in
  delete "duration_seconds" meta.

(** [message.metadata()], dispatched on the class of the instance. *)
Definition metadata (m : Message) : dict :=
  match m with
  | TextObj b => TextMessage_metadata b
  | MediaObj b md => MediaMessage_metadata b md
  | PhotoObj b md => PhotoMessage_metadata b md
  | FileObj b md => FileMessage_metadata b md
  end.

(** [d[k]]: a missing key raises [KeyError], whose text is the key's repr. *)
Definition getitem `{UnicodeData} (d : dict) (k : string) : M value :=
  match d !! k with
  | Some v => ret v
  | None => raise (OtherException (Py.repr (py k)))
  end.

(** ** Channels *)

Section Channels.
Context `{UnicodeData}.

Definition plus_sign : N := 43.

(** [PhoneChannel._validate_phone] *)
Definition _validate_phone (recipient : pystr) : M unit :=
  let r := Py.strip recipient in
  let r := if Py.startswith r (py "+") then Py.slice_from_1 r else r in
  if negb (Py.isdigit r) || negb ((8 <=? Py.len r)%Z && (Py.len r <=? 15)%Z)
  then raise (InvalidRecipientError
                (py "Telefone inválido: " ++ Py.repr recipient))
  else ret tt.

(** [UserChannel._validate_username]; the empty string is falsy. *)
Definition _validate_username (recipient : pystr) : M unit :=
  let r := Py.strip recipient in
  if bool_decide (r = []) || (50 <? Py.len r)%Z
  then raise (InvalidRecipientError
                (py "Usuário inválido: " ++ Py.repr recipient))
  else ret tt.

(** [WhatsAppChannel.send] *)
Definition WhatsAppChannel_send (message : Message) (recipient : pystr)
    : M unit :=
  _validate_phone recipient ;;
  let meta := metadata message in
  let! ty := getitem meta "type" in
  print (py "[WhatsApp] Enviando para " ++ recipient ++ py " -> tipo: "
         ++ str_of_value ty ++ py ", texto: " ++ str_of_get (meta !! "text")) ;;
  let! ty := getitem meta "type" in
  (if bool_decide (ty <> VStr (py "text"))
   then print (py "  arquivo: " ++ str_of_get (meta !! "file_path")
               ++ py " (" ++ str_of_get (meta !! "format") ++ py ")")
   else ret tt) ;;
  print (py "  -> Enviado com sucesso via WhatsApp.").

(** [TelegramChannel.send]: the validator is chosen from the shape of the
    stripped recipient, and it is the stripped recipient that is handed to
    the validator. *)
Definition TelegramChannel_send (message : Message) (recipient : pystr)
    : M unit :=
  let r := Py.strip recipient in
  (if Py.startswith r (py "@")
      || (negb (Py.startswith r (py "+"))
          && negb (Py.isdigit (Py.replace r plus_sign [])))
   then _validate_username r
   else _validate_phone r) ;;
  let meta := metadata message in
  let! ty := getitem meta "type" in
  print (py "[Telegram] Enviando para " ++ recipient ++ py " -> tipo: "
         ++ str_of_value ty ++ py ", texto: " ++ str_of_get (meta !! "text")) ;;
  let! ty := getitem meta "type" in
  (if bool_decide (ty <> VStr (py "text"))
   then print (py "  arquivo: " ++ str_of_get (meta !! "file_path")
               ++ py " (" ++ str_of_get (meta !! "format") ++ py ")")
   else ret tt) ;;
  print (py "  -> Enviado com sucesso via Telegram.").

(** [FacebookChannel.send] *)
Definition FacebookChannel_send (message : Message) (recipient : pystr)
    : M unit :=
  _validate_username recipient ;;
  let meta := metadata message in
  let! ty := getitem meta "type" in
  print (py "[Facebook] Enviando para " ++ recipient ++ py " -> tipo: "
         ++ str_of_value ty ++ py ", texto: " ++ str_of_get (meta !! "text")) ;;
  let! ty := getitem meta "type" in
  (if bool_decide (ty <> VStr (py "text"))
   then print (py "  arquivo: " ++ str_of_get (meta !! "file_path")
               ++ py " (" ++ str_of_get (meta !! "format") ++ py ")")
   else ret tt) ;;
  print (py "  -> Enviado com sucesso via Facebook.").

(** [InstagramChannel.send] *)
Definition InstagramChannel_send (message : Message) (recipient : pystr)
    : M unit :=
  _validate_username recipient ;;
  let meta := metadata message in
  let! ty := getitem meta "type" in
  print (py "[Instagram] Enviando para " ++ recipient ++ py " -> tipo: "
         ++ str_of_value ty ++ py ", texto: " ++ str_of_get (meta !! "text")) ;;
  let! ty := getitem meta "type" in
  (if bool_decide (ty <> VStr (py "text"))
   then print (py "  arquivo: " ++ str_of_get (meta !! "file_path")
               ++ py " (" ++ str_of_get (meta !! "format") ++ py ")")
   else ret tt) ;;
  print (py "  -> Enviado com sucesso via Instagram.").

(** The concrete channel classes; they have no fields. *)
Inductive Channel :=
  | WhatsAppChannel
  | TelegramChannel
  | FacebookChannel
  | InstagramChannel.

(** [channel.send(message, recipient)] *)
Definition send (channel : Channel) : Message -> pystr -> M unit :=
  match channel with
  | WhatsAppChannel => WhatsAppChannel_send
  | TelegramChannel => TelegramChannel_send
  | FacebookChannel => FacebookChannel_send
  | InstagramChannel => InstagramChannel_send
  end.

(** The three [except] clauses of [send_message_to_channel], in order. *)
Definition report_error (e : exn) : M unit :=
  match e with
  | InvalidRecipientError msg =>
      print (py "[Erro] destinatário inválido: " ++ msg)
  | UnsupportedMessageError msg =>
      print (py "[Erro] mensagem não suportada neste canal: " ++ msg)
  | OtherException msg =>
      print (py "[Erro inesperado] " ++ msg)
  end.

(** [send_message_to_channel] *)
Definition send_message_to_channel (channel : Channel) (message : Message)
    (recipient : pystr) : M unit :=
  try_except (send channel message recipient) report_error.

End Channels.

(** ** Vocabulary of the properties *)

(** The tag the class of an instance writes under the key [type]. *)
Definition type_tag (m : Message) : pystr :=
  match m with
  | TextObj _ => py "text"
  | MediaObj _ _ => py "media"
  | PhotoObj _ _ => py "photo"
  | FileObj _ _ => py "file"
  end.

(** The name a channel prints in its report. *)
Definition channel_name (channel : Channel) : pystr :=
  match channel with
  | WhatsAppChannel => py "WhatsApp"
  | TelegramChannel => py "Telegram"
  | FacebookChannel => py "Facebook"
  | InstagramChannel => py "Instagram"
  end.

(** The lines a channel prints once the recipient has been accepted. *)
Definition delivery_report (channel : Channel) (m : Message) (recipient : pystr)
    : list pystr :=
  [py "[" ++ channel_name channel ++ py "] Enviando para " ++ recipient
   ++ py " -> tipo: " ++ type_tag m ++ py ", texto: " ++ text m]
  ++ match media_of m with
     | Some md => [py "  arquivo: " ++ _file_path md
                   ++ py " (" ++ _format md ++ py ")"]
     | None => []
     end
  ++ [py "  -> Enviado com sucesso via " ++ channel_name channel ++ py "."].

Section Shapes.
Context `{UnicodeData}.

(** Telegram's test on the stripped recipient (line 171 of the source). *)
Definition telegram_takes_username (r : pystr) : bool :=
  Py.startswith r (py "@")
  || (negb (Py.startswith r (py "+"))
      && negb (Py.isdigit (Py.replace r plus_sign []))).

(** The validation step each channel's [send] starts with. *)
Definition validation (channel : Channel) (recipient : pystr) : M unit :=
  match channel with
  | WhatsAppChannel => _validate_phone recipient
  | TelegramChannel =>
      let r := Py.strip recipient in
      if telegram_takes_username r
      then _validate_username r else _validate_phone r
  | FacebookChannel | InstagramChannel => _validate_username recipient
  end.

End Shapes.

(** ** Outcomes *)

Inductive FailureKind := InvalidRecipient | UnsupportedMessage | Unexpected.

(** The outcome of a dispatch as the specification presents it. *)
Inductive Outcome :=
  | Sent (report : list pystr)
  | Failed (kind : FailureKind) (detail : pystr).

(** The outcome a run of [channel.send] amounts to. *)
Definition outcome_of (run : M unit) : Outcome :=
  match run with
  | (out, inr _) => Sent out
  | (_, inl (InvalidRecipientError msg)) => Failed InvalidRecipient msg
  | (_, inl (UnsupportedMessageError msg)) => Failed UnsupportedMessage msg
  | (_, inl (OtherException msg)) => Failed Unexpected msg
  end.

Definition dispatch `{UnicodeData} (channel : Channel) (m : Message)
    (recipient : pystr) : Outcome :=
  outcome_of (send channel m recipient).

(** What [send_message_to_channel] leaves on the console for an outcome. *)
Definition console (o : Outcome) : list pystr :=
  match o with
  | Sent report => report
  | Failed InvalidRecipient detail =>
      [py "[Erro] destinatário inválido: " ++ detail]
  | Failed UnsupportedMessage detail =>
      [py "[Erro] mensagem não suportada neste canal: " ++ detail]
  | Failed Unexpected detail =>
      [py "[Erro inesperado] " ++ detail]
  end.

(** [s] occurs in some line of [report]. *)
Definition occurs_in (s : pystr) (report : list pystr) : Prop :=
  exists line pre post, In line report /\ line = pre ++ s ++ post.

(** Two instances of the same class that agree on everything but
    [_send_date]. *)
Definition same_but_send_date (m1 m2 : Message) : Prop :=
  match m1, m2 with
  | TextObj b1, TextObj b2 => _text b1 = _text b2
  | MediaObj b1 md1, MediaObj b2 md2
  | PhotoObj b1 md1, PhotoObj b2 md2
  | FileObj b1 md1, FileObj b2 md2 => _text b1 = _text b2 /\ md1 = md2
  | _, _ => False
  end.

(** [core] is [s] without its leading and trailing whitespace. *)
Definition trimmed (s core : pystr) : Prop :=
  exists pre post,
    s = pre ++ core ++ post
    /\ forallb Py.isspace_char pre = true
    /\ forallb Py.isspace_char post = true
    /\ (forall c t, core = c :: t -> Py.isspace_char c = false)
    /\ (forall c t, core = t ++ [c] -> Py.isspace_char c = false).

(** ** The specification's reading of the phone rule and of Telegram's test *)

(** Decimal digits as the specification means them: 0 to 9. *)
Definition decimal_digit (c : N) : bool := (48 <=? c) && (c <=? 57).

(** The pattern of the specification on the stripped recipient: an optional
    plus sign, then 8 to 15 decimal digits. *)
Definition matches_phone_pattern (recipient : pystr) : bool :=
  let r := Py.strip recipient in
  let digits := match r with
                | c :: u => if c =? plus_sign then u else r
                | [] => r
                end in
  forallb decimal_digit digits
  && (8 <=? length digits)%nat && (length digits <=? 15)%nat.



Definition superscript_two : N := 178.

Definition sample_now : datetime :=
  {| year := 2024; month := 5; day := 17;
     hour := 9; minute := 30; second := 0; microsecond := 0 |}.

Definition sample_later : datetime :=
  {| year := 2024; month := 5; day := 17;
     hour := 9; minute := 31; second := 12; microsecond := 250 |}.

Definition sample_text : Message := TextMessage sample_now (py "hi") None.

Definition sample_video : Message :=
  MediaMessage sample_now (py "v") (py "/tmp/video.mp4") (py "mp4")
    (Some 120%Z).

(** ** The interactive shell *)

(** What reaches the terminal: a line written by [print], or the prompt of
    [input], which is written without a line end. *)
Inductive event :=
  | Printed (line : pystr)
  | Prompted (prompt : pystr).

(** What the shell reads from: the lines still waiting on standard input,
    and how many times the clock has been read so far. *)
Record world := {
  stdin : list pystr;
  clock_reads : nat
}.

(** A computation of the shell: from a world to what it wrote, its result
    or the exception it raised, and the world it leaves. *)
Definition IO (A : Type) : Type := world -> list event * (exn + A) * world.

Definition io_ret {A} (a : A) : IO A := fun w => ([], inr a, w).

Definition io_bind {A B} (m : IO A) (k : A -> IO B) : IO B :=
  fun w =>
    match m w with
    | (ev, inl e, w') => (ev, inl e, w')
    | (ev, inr a, w') => let '(ev', r, w'') := k a w' in (ev ++ ev', r, w'')
    end.

(** A computation of the core, run from the shell: its lines are printed. *)
Definition lift {A} (m : M A) : IO A :=
  fun w => (map Printed (fst m), snd m, w).

Definition io_print (line : pystr) : IO unit := lift (print line).

(** [EOFError], as [input] raises it when the input is exhausted. *)
Definition EOFError : exn := OtherException (py "EOF when reading a line").

(** [input(prompt)] *)
Definition input (prompt : pystr) : IO pystr :=
  fun w =>
    match stdin w with
    | [] => ([Prompted prompt], inl EOFError, w)
    | line :: rest =>
        ([Prompted prompt], inr line,
         {| stdin := rest; clock_reads := clock_reads w |})
    end.

Declare Scope io_scope.
Delimit Scope io_scope with io.
Notation "'let!' x ':=' m 'in' k" := (io_bind m (fun x => k))
  (at level 10, x name, m at level 100, k at level 200) : io_scope.
Notation "m ;; k" := (io_bind m (fun _ => k))
  (at level 100, k at level 200, right associativity) : io_scope.

Definition newline : N := 10.

Section Shell.
Context `{UnicodeData}.

(** The clock: what the n-th call of [datetime.now()] answers. *)
Variable clock : nat -> datetime.

(** The built-in [int] on strings; [None] stands for [ValueError]. *)
Variable int : pystr -> option Z.

Local Open Scope io_scope.

(** [datetime.now()] *)
Definition datetime_now : IO datetime :=
  fun w =>
    ([], inr (clock (clock_reads w)),
     {| stdin := stdin w; clock_reads := S (clock_reads w) |}).

(** [get_user_input]; a default that is [None] or empty is falsy. *)
Definition get_user_input (prompt : pystr) (default : option pystr)
    : IO pystr :=
  match default with
  | Some (c :: d) =>
      let! s := input (prompt ++ py " (Padrão: " ++ (c :: d) ++ py "): ") in
      io_ret (match s with
              | [] => c :: d
              | _ :: _ => s
              end)
  | _ => input (prompt ++ py ": ")
  end.

(** [create_message_from_input] *)
Definition create_message_from_input : IO (option Message) :=
  io_print (newline :: py "--- Criar Mensagem ---") ;;
  io_print (py "Tipos de Mensagem:") ;;
  io_print (py "  1: Texto") ;;
  io_print (py "  2: Foto") ;;
  io_print (py "  3: Vídeo") ;;
  io_print (py "  4: Arquivo") ;;
  let! choice := get_user_input (py "Escolha o tipo de mensagem (1-4)")
                   (Some (py "1")) in
  let! text := get_user_input (py "Digite o texto da mensagem")
                 (Some (py "Mensagem de teste")) in
  if bool_decide (choice = py "1") then
    let! now := datetime_now in
    io_ret (Some (TextMessage now text None))
  else if bool_decide (choice = py "2")
          || bool_decide (choice = py "3")
          || bool_decide (choice = py "4") then
    let! file_path := get_user_input (py "Caminho do arquivo")
                        (Some (py "/tmp/arquivo_teste")) in
    let! file_format := get_user_input
                          (py "Formato do arquivo (ex: jpg, mp4, pdf)")
                          (Some (py "txt")) in
    if bool_decide (choice = py "2") then
      let! now := datetime_now in
      io_ret (Some (PhotoMessage now text file_path file_format))
    else if bool_decide (choice = py "3") then
      let! duration := get_user_input (py "Duração do vídeo em segundos")
                         (Some (py "60")) in
      let! duration_seconds :=
        match int duration with
        | Some n => io_ret n
        | None =>
            io_print (py "[Aviso] Duração inválida. Usando 60 segundos.") ;;
            io_ret 60%Z
        end in
      let! now := datetime_now in
      io_ret (Some (MediaMessage now text file_path file_format
                      (Some duration_seconds)))
    else if bool_decide (choice = py "4") then
      let! now := datetime_now in
      io_ret (Some (FileMessage now text file_path file_format))
    else io_ret None
  else
    io_print (py "[Erro] Opção de mensagem inválida.") ;;
    io_ret None.

(** The dictionary [channels] of [main]. *)
Definition channels : gmap pystr (Channel * pystr) :=
  {[ py "1" := (WhatsAppChannel, py "WhatsApp");
     py "2" := (TelegramChannel, py "Telegram");
     py "3" := (FacebookChannel, py "Facebook");
     py "4" := (InstagramChannel, py "Instagram") ]}.

(** Option 1 of the menu: compose a message and send it. *)
Definition main_send : IO unit :=
  let! message := create_message_from_input in
  match message with
  | None => io_ret tt
  | Some message =>
      io_print (newline :: py "--- Escolher Canal ---") ;;
      io_print (py "Canais Disponíveis:") ;;
      io_print (py "  1: WhatsApp (Telefone)") ;;
      io_print (py "  2: Telegram (Telefone ou Usuário)") ;;
      io_print (py "  3: Facebook (Usuário)") ;;
      io_print (py "  4: Instagram (Usuário)") ;;
      let! channel_choice := get_user_input (py "Escolha o canal (1-4)")
                               (Some (py "1")) in
      match channels !! channel_choice with
      | Some (channel, name) =>
          let! recipient := get_user_input
                              (py "Digite o destinatário para " ++ name)
                              None in
          io_print (newline :: py "=== Enviando via " ++ name ++ py " ===") ;;
          lift (send_message_to_channel channel message recipient)
      | None => io_print (py "[Erro] Opção de canal inválida.")
      end
  end.

(** Option 2 of the menu: the fixed validation tests. *)
Definition main_tests : IO unit :=
  io_print (newline :: py "=== Executando Testes de Validação Fixos ===") ;;
  let! now := datetime_now in
  let txt := TextMessage now
               (py "Olá! Esta é uma mensagem de texto para teste.") None in
  let! now := datetime_now in
  let vid := MediaMessage now (py "Veja este vídeo de teste")
               (py "/tmp/video.mp4") (py "mp4") (Some 120%Z) in
  io_print (newline :: py "--- Teste: número inválido (WhatsApp) ---") ;;
  lift (send_message_to_channel WhatsAppChannel txt (py "abc123")) ;;
  io_print (newline :: py "--- Teste: username muito longo (Instagram) ---") ;;
  lift (send_message_to_channel InstagramChannel txt (repeat 117 100)) ;;
  io_print (newline :: py "--- Teste: envio de vídeo (Telegram) ---") ;;
  lift (send_message_to_channel TelegramChannel vid (py "@usuario_valido")) ;;
  io_print (newline :: py "Testes de validação concluídos.").

(** The loop of [main]; each turn reads at least one line, so [fuel] bounds
    the turns.  [None] is returned only when the fuel runs out. *)
Fixpoint main_loop (fuel : nat) : IO (option unit) :=
  match fuel with
  | O => io_ret None
  | S fuel' =>
      io_print (newline :: py "=====================================") ;;
      io_print (py "  Simulador de Envio de Mensagens") ;;
      io_print (py "=====================================") ;;
      io_print (py "Opções:") ;;
      io_print (py "  1: Enviar Mensagem") ;;
      io_print (py "  2: Testar Validações (Exemplos Fixos)") ;;
      io_print (py "  0: Sair") ;;
      let! main_choice := get_user_input (py "Escolha uma opção (0-2)")
                            (Some (py "1")) in
      if bool_decide (main_choice = py "0") then
        io_print (py "Saindo do simulador.") ;;
        io_ret (Some tt)
      else
        (if bool_decide (main_choice = py "1") then main_send
         else if bool_decide (main_choice = py "2") then main_tests
         else io_print (py "[Erro] Opção inválida. Tente novamente.")) ;;
        main_loop fuel'
  end.

(** [main], with as many turns as the input can feed. *)
Definition main : IO (option unit) :=
  fun w => main_loop (S (length (stdin w))) w.

End Shell.

(** A clock and a number reader for closed examples; the reader knows the
    strings of one to three ASCII digits. *)
Definition sample_clock (n : nat) : datetime :=
  {| year := 2024; month := 5; day := 17;
     hour := 9; minute := 30; second := N.of_nat n; microsecond := 0 |}.

Definition sample_int (s : pystr) : option Z :=
  if forallb decimal_digit s && (1 <=? length s)%nat && (length s <=? 3)%nat
  then Some (fold_left (fun acc c => acc * 10 + Z.of_N (c - 48))%Z s 0%Z)
  else None.

(** ** Vocabulary of the shell's properties *)

(** The prompt [get_user_input] shows. *)
Definition shown (prompt : pystr) (default : option pystr) : pystr :=
  match default with
  | Some (c :: d) => prompt ++ py " (Padrão: " ++ (c :: d) ++ py "): "
  | _ => prompt ++ py ": "
  end.

(** What [get_user_input] makes of the line it has read. *)
Definition answer (default : option pystr) (line : pystr) : pystr :=
  match default, line with
  | Some (c :: d), [] => c :: d
  | _, _ => line
  end.

(** A run with [pre] written before it. *)
Definition emit {A} (pre : list event) (run : list event * (exn + A) * world)
    : list event * (exn + A) * world :=
  let '(ev, r, w) := run in (pre ++ ev, r, w).

(** [m] runs without surprise: it returns a value that satisfies [Q],
    having read no more than the lines that were waiting, or it raises
    [EOFError] with the input exhausted. *)
Definition ensures {A} (m : IO A) (Q : A -> Prop) : Prop :=
  forall w,
    match m w with
    | (_, inr a, w') => Q a /\ (length (stdin w') <= length (stdin w))%nat
    | (_, inl e, w') => e = EOFError /\ stdin w' = []
    end.

(** The messages the shell builds: the text is never empty; a message with
    a file has a path and a format, a generic media message (the video of
    the menu) has a duration, a photo and a file have none. *)
Definition created_well (m : Message) : Prop :=
  text m <> []
  /\ match m with
     | TextObj _ => True
     | MediaObj _ md =>
         _file_path md <> [] /\ _format md <> []
         /\ is_Some (_duration_seconds md)
     | PhotoObj _ md | FileObj _ md =>
         _file_path md <> [] /\ _format md <> []
         /\ _duration_seconds md = None
     end.

(** How a run of [main] may end: after the farewell line, or on
    [EOFError] with the input exhausted. *)
Definition ends_well (run : list event * (exn + option unit) * world) : Prop :=
  let '(ev, r, w') := run in
  (r = inr (Some tt)
   /\ last ev = Some (Printed (py "Saindo do simulador.")))
  \/ (r = inl EOFError /\ stdin w' = []).

(** * Properties *)

(** ** Evaluation on the scenarios of the source *)

Example py_literal : py "inválido" = [105; 110; 118; 225; 108; 105; 100; 111].
Proof. reflexivity. Qed.

Example strip_example : Py.strip (py "  +55 11 ") = py "+55 11".
Proof. reflexivity. Qed.

Example repr_example :
  @Py.repr basic_tables (py " 12345 ") = 39 :: py " 12345 " ++ [39].
Proof. reflexivity. Qed.

Example whatsapp_abc123 :
  @send_message_to_channel basic_tables WhatsAppChannel
    (TextMessage (Build_datetime 2024 1 1 0 0 0 0) (py "hi") None) (py "abc123")
  = ([py "[Erro] destinatário inválido: Telefone inválido: 'abc123'"], inr tt).
Proof. vm_compute. reflexivity. Qed.

Example telegram_video :
  @send_message_to_channel basic_tables TelegramChannel
    (MediaMessage (Build_datetime 2024 1 1 0 0 0 0) (py "v")
       (py "/tmp/video.mp4") (py "mp4") (Some 120%Z))
    (py "@usuario_valido")
  = ([py "[Telegram] Enviando para @usuario_valido -> tipo: media, texto: v";
      py "  arquivo: /tmp/video.mp4 (mp4)";
      py "  -> Enviado com sucesso via Telegram."], inr tt).
Proof. vm_compute. reflexivity. Qed.

(** ** Stripping *)

Module StripFacts.
Import Py.

Lemma forallb_reversed {A} (f : A -> bool) (l : list A) :
  forallb f (rev l) = forallb f l.
Proof.
  induction l as [|a l IH]; simpl; [done|].
  rewrite forallb_app, IH. simpl. rewrite andb_true_r. apply andb_comm.
Qed.

Lemma lstrip_split (s : pystr) :
  exists pre, s = pre ++ lstrip s /\ forallb isspace_char pre = true.
Proof.
  induction s as [|c s [pre [Hs Hpre]]]; simpl.
  - exists []. done.
  - destruct (isspace_char c) eqn:Hc.
    + exists (c :: pre). simpl. rewrite Hc, Hpre. split; [by f_equal | done].
    + exists []. done.
Qed.

Lemma lstrip_head (s : pystr) (c : N) (t : pystr) :
  lstrip s = c :: t -> isspace_char c = false.
Proof.
  induction s as [|d s IH]; simpl; [done|].
  destruct (isspace_char d) eqn:Hd; [done|].
  intros [= -> _]. done.
Qed.

Lemma lstrip_fixed (s : pystr) :
  (forall c t, s = c :: t -> isspace_char c = false) -> lstrip s = s.
Proof.
  destruct s as [|c t]; [done|]. intros Hh. simpl.
  by rewrite (Hh c t eq_refl).
Qed.

(** What [strip] returns: the argument without a whitespace prefix and a
    whitespace suffix, and with no whitespace left at either end. *)
Lemma strip_spec (s : pystr) :
  exists pre post,
    s = pre ++ strip s ++ post
    /\ forallb isspace_char pre = true
    /\ forallb isspace_char post = true
    /\ (forall c t, strip s = c :: t -> isspace_char c = false)
    /\ (forall c t, strip s = t ++ [c] -> isspace_char c = false).
Proof.
  unfold strip, rstrip.
  destruct (lstrip_split s) as [pre [Hs Hpre]].
  destruct (lstrip_split (rev (lstrip s))) as [q [Hq Hqs]].
  assert (Hk : lstrip s = rev (lstrip (rev (lstrip s))) ++ rev q).
  { rewrite <- rev_app_distr, <- Hq. by rewrite rev_involutive. }
  exists pre, (rev q). repeat split.
  - rewrite Hs at 1. by rewrite <- Hk.
  - done.
  - by rewrite forallb_reversed.
  - intros c t Hc. rewrite Hc in Hk. simpl in Hk.
    by apply (lstrip_head s c (t ++ rev q)).
  - intros c t Hc.
    apply (f_equal (@rev N)) in Hc.
    rewrite rev_involutive, rev_app_distr in Hc. simpl in Hc.
    by apply lstrip_head in Hc.
Qed.

(** Stripping twice is stripping once. *)
Lemma strip_idemp (s : pystr) : strip (strip s) = strip s.
Proof.
  destruct (strip_spec s) as (pre & post & _ & _ & _ & Hh & Ht).
  unfold strip at 1. rewrite (lstrip_fixed (strip s)) by exact Hh.
  unfold rstrip. rewrite lstrip_fixed; [apply rev_involutive|].
  intros c t Hr. apply (Ht c (rev t)).
  rewrite <- (rev_involutive (strip s)), Hr. reflexivity.
Qed.

Lemma lstrip_spaces (pre s : pystr) :
  forallb isspace_char pre = true -> lstrip (pre ++ s) = lstrip s.
Proof.
  induction pre as [|c pre IH]; simpl; [done|].
  intros [Hc Hpre]%andb_true_iff. rewrite Hc. by apply IH.
Qed.

(** [strip] is determined by its specification: a core with no whitespace
    at its ends, wrapped in whitespace, strips to that core. *)
Lemma strip_unique (pre core post : pystr) :
  forallb isspace_char pre = true ->
  forallb isspace_char post = true ->
  core <> [] ->
  (forall c t, core = c :: t -> isspace_char c = false) ->
  (forall c t, core = t ++ [c] -> isspace_char c = false) ->
  strip (pre ++ core ++ post) = core.
Proof.
  intros Hpre Hpost Hne Hh Ht. unfold strip, rstrip.
  rewrite lstrip_spaces by done.
  rewrite (lstrip_fixed (core ++ post)).
  - rewrite rev_app_distr, lstrip_spaces by (by rewrite forallb_reversed).
    rewrite lstrip_fixed; [apply rev_involutive|].
    intros c t Hr. apply (Ht c (rev t)).
    rewrite <- (rev_involutive core), Hr. reflexivity.
  - destruct core as [|d u]; [done|].
    intros c t [= <- _]. by apply (Hh d u).
Qed.

(** [strip] answers the empty string exactly on all-whitespace input. *)
Lemma strip_empty_iff (s : pystr) :
  strip s = [] <-> forallb isspace_char s = true.
Proof.
  split.
  - intros He. destruct (strip_spec s) as (pre & post & Hs & Hp & Hq & _).
    rewrite He in Hs. rewrite Hs. simpl.
    by rewrite forallb_app, Hp, Hq.
  - intros Hs. unfold strip.
    rewrite <- (app_nil_r s), lstrip_spaces by done. reflexivity.
Qed.

End StripFacts.

(** ** Metadata of the four classes *)

Lemma MediaMessage_metadata_type b md :
  MediaMessage_metadata b md !! "type" = Some (VStr (py "media")).
Proof. unfold MediaMessage_metadata. destruct (_duration_seconds md); by simplify_map_eq. Qed.

Lemma MediaMessage_metadata_text b md :
  MediaMessage_metadata b md !! "text" = Some (VStr (_text b)).
Proof. unfold MediaMessage_metadata. destruct (_duration_seconds md); by simplify_map_eq. Qed.

Lemma MediaMessage_metadata_file_path b md :
  MediaMessage_metadata b md !! "file_path" = Some (VStr (_file_path md)).
Proof. unfold MediaMessage_metadata. destruct (_duration_seconds md); by simplify_map_eq. Qed.

Lemma MediaMessage_metadata_format b md :
  MediaMessage_metadata b md !! "format" = Some (VStr (_format md)).
Proof. unfold MediaMessage_metadata. destruct (_duration_seconds md); by simplify_map_eq. Qed.

Lemma MediaMessage_metadata_duration b md :
  MediaMessage_metadata b md !! "duration_seconds" = VInt <$> _duration_seconds md.
Proof. unfold MediaMessage_metadata. destruct (_duration_seconds md); by simplify_map_eq. Qed.

Lemma metadata_type (m : Message) :
  metadata m !! "type" = Some (VStr (type_tag m)).
Proof.
  destruct m; simpl; unfold TextMessage_metadata, PhotoMessage_metadata,
    FileMessage_metadata; try apply MediaMessage_metadata_type;
    by simplify_map_eq.
Qed.

Lemma metadata_text (m : Message) :
  metadata m !! "text" = Some (VStr (text m)).
Proof.
  destruct m; simpl; unfold TextMessage_metadata, PhotoMessage_metadata,
    FileMessage_metadata, text; simpl; try apply MediaMessage_metadata_text;
    simplify_map_eq; try done; apply MediaMessage_metadata_text.
Qed.

Lemma metadata_file_path (m : Message) :
  metadata m !! "file_path" = (fun md => VStr (_file_path md)) <$> media_of m.
Proof.
  destruct m; simpl; unfold TextMessage_metadata, PhotoMessage_metadata,
    FileMessage_metadata; try apply MediaMessage_metadata_file_path;
    simplify_map_eq; try done; apply MediaMessage_metadata_file_path.
Qed.

Lemma metadata_format (m : Message) :
  metadata m !! "format" = (fun md => VStr (_format md)) <$> media_of m.
Proof.
  destruct m; simpl; unfold TextMessage_metadata, PhotoMessage_metadata,
    FileMessage_metadata; try apply MediaMessage_metadata_format;
    simplify_map_eq; try done; apply MediaMessage_metadata_format.
Qed.

Lemma metadata_duration (m : Message) :
  metadata m !! "duration_seconds" =
    match m with
    | MediaObj _ md => VInt <$> _duration_seconds md
    | _ => None
    end.
Proof.
  destruct m; simpl; unfold TextMessage_metadata, PhotoMessage_metadata,
    FileMessage_metadata; try apply MediaMessage_metadata_duration;
    by simplify_map_eq.
Qed.

(** ** The shape of [send] *)

Section SendShape.
Context `{UnicodeData}.

Lemma _validate_phone_cases (recipient : pystr) :
  _validate_phone recipient = ret tt
  \/ _validate_phone recipient =
       raise (InvalidRecipientError
                (py "Telefone inválido: " ++ Py.repr recipient)).
Proof. unfold _validate_phone. case (_ || _); auto. Qed.

Lemma _validate_username_cases (recipient : pystr) :
  _validate_username recipient = ret tt
  \/ _validate_username recipient =
       raise (InvalidRecipientError
                (py "Usuário inválido: " ++ Py.repr recipient)).
Proof. unfold _validate_username. case (_ || _); auto. Qed.

(** A validator prints nothing and raises nothing but
    [InvalidRecipientError]. *)
Lemma validation_cases (channel : Channel) (recipient : pystr) :
  validation channel recipient = ret tt
  \/ exists msg, validation channel recipient = raise (InvalidRecipientError msg).
Proof.
  destruct channel; simpl;
    try destruct (telegram_takes_username _);
    first [ destruct (_validate_phone_cases recipient) as [->| ->]
          | destruct (_validate_username_cases recipient) as [->| ->]
          | destruct (_validate_phone_cases (Py.strip recipient)) as [->| ->]
          | destruct (_validate_username_cases (Py.strip recipient)) as [->| ->] ];
    eauto.
Qed.

Lemma report_after_validation (v : M unit) (name : pystr) (m : Message)
    (recipient : pystr) (last : pystr) :
  (v ;;
   let meta := metadata m in
   let! ty := getitem meta "type" in
   print (name ++ recipient ++ py " -> tipo: "
          ++ str_of_value ty ++ py ", texto: " ++ str_of_get (meta !! "text")) ;;
   let! ty := getitem meta "type" in
   (if bool_decide (ty <> VStr (py "text"))
    then print (py "  arquivo: " ++ str_of_get (meta !! "file_path")
                ++ py " (" ++ str_of_get (meta !! "format") ++ py ")")
    else ret tt) ;;
   print last)
  = (v ;;
     ([name ++ recipient ++ py " -> tipo: " ++ type_tag m
       ++ py ", texto: " ++ text m]
      ++ match media_of m with
         | Some md => [py "  arquivo: " ++ _file_path md
                       ++ py " (" ++ _format md ++ py ")"]
         | None => []
         end
      ++ [last], inr tt)).
Proof.
  destruct v as [out [e|[]]]; [reflexivity|].
  cbv zeta. unfold getitem.
  rewrite metadata_type, metadata_text, metadata_file_path, metadata_format.
  destruct m; reflexivity.
Qed.

(** Every [send] is its validation step followed by the report. *)
Lemma send_shape (channel : Channel) (m : Message) (recipient : pystr) :
  send channel m recipient
  = (validation channel recipient ;;
     (delivery_report channel m recipient, inr tt)).
Proof.
  destruct channel; simpl; unfold WhatsAppChannel_send, TelegramChannel_send,
    FacebookChannel_send, InstagramChannel_send; cbv zeta;
    fold (telegram_takes_username (Py.strip recipient));
    apply report_after_validation.
Qed.

End SendShape.

(** ** Dispatch *)

Section Dispatch.
Context `{UnicodeData}.

(** A send either delivers the report or fails on the recipient, having
    printed nothing. *)
Lemma send_cases (channel : Channel) (m : Message) (recipient : pystr) :
  send channel m recipient = (delivery_report channel m recipient, inr tt)
  \/ exists msg,
       send channel m recipient = ([], inl (InvalidRecipientError msg)).
Proof.
  rewrite send_shape.
  destruct (validation_cases channel recipient) as [-> | [msg ->]].
  - left. reflexivity.
  - right. exists msg. reflexivity.
Qed.

(** C2. Dispatch never raises: for every channel, message and recipient
    [send_message_to_channel] returns normally, and what it has printed is
    the rendering of an outcome that is [Sent] or [Failed] with one of the
    three kinds.  Whatever a channel's [send] has printed, an exception of
    any class other than the two named ones is reported on the unexpected
    line with its description, and the call returns. *)
Theorem dispatch_never_raises (channel : Channel) (m : Message)
    (recipient : pystr) :
  snd (send_message_to_channel channel m recipient) = inr tt
  /\ stdout (send_message_to_channel channel m recipient)
     = console (dispatch channel m recipient)
  /\ (forall (body : M unit), snd (try_except body report_error) = inr tt)
  /\ (forall (out : list pystr) (msg : pystr),
        try_except (out, inl (OtherException msg)) report_error
        = (out ++ [py "[Erro inesperado] " ++ msg], inr tt)
        /\ outcome_of (out, inl (OtherException msg)) = Failed Unexpected msg).
Proof.
  unfold send_message_to_channel, dispatch.
  repeat split.
  - destruct (send_cases channel m recipient) as [-> | [msg ->]]; reflexivity.
  - destruct (send_cases channel m recipient) as [-> | [msg ->]]; reflexivity.
  - intros [out [[msg|msg|msg] | []]]; reflexivity.
Qed.

(** C9. No channel's [send] raises [UnsupportedMessageError], so no
    dispatch ends in a failure of kind [UnsupportedMessage] and the
    unsupported line is never printed by it; the [except] clause exists
    all the same and would report such an exception. *)
Theorem unsupported_message_unreachable (channel : Channel) (m : Message)
    (recipient : pystr) :
  (forall out msg,
     send channel m recipient <> (out, inl (UnsupportedMessageError msg)))
  /\ (forall detail,
        dispatch channel m recipient <> Failed UnsupportedMessage detail)
  /\ (forall out msg,
        try_except (out, inl (UnsupportedMessageError msg)) report_error
        = (out ++ [py "[Erro] mensagem não suportada neste canal: " ++ msg],
           inr tt)).
Proof.
  unfold dispatch. repeat split.
  - intros out msg.
    destruct (send_cases channel m recipient) as [-> | [msg' ->]]; congruence.
  - intros detail.
    destruct (send_cases channel m recipient) as [-> | [msg' ->]]; simpl;
      congruence.
Qed.

Lemma same_but_send_date_view (m1 m2 : Message) :
  same_but_send_date m1 m2 ->
  type_tag m1 = type_tag m2 /\ text m1 = text m2 /\ media_of m1 = media_of m2.
Proof.
  destruct m1, m2; simpl; try done; unfold text; simpl; intuition congruence.
Qed.

(** C10. Two messages that differ only in their send timestamp are
    dispatched alike: for every channel and recipient the two calls print
    the same lines and end the same way, and their metadata are equal, so
    neither a report nor a failure detail shows the timestamp. *)
Theorem dispatch_ignores_send_date (channel : Channel) (m1 m2 : Message)
    (recipient : pystr) :
  same_but_send_date m1 m2 ->
  send_message_to_channel channel m1 recipient
  = send_message_to_channel channel m2 recipient
  /\ dispatch channel m1 recipient = dispatch channel m2 recipient
  /\ metadata m1 = metadata m2.
Proof.
  intros Hs.
  destruct (same_but_send_date_view m1 m2 Hs) as (Hty & Htx & Hmd).
  assert (Hsend : send channel m1 recipient = send channel m2 recipient).
  { rewrite !send_shape. unfold delivery_report.
    by rewrite Hty, Htx, Hmd. }
  unfold send_message_to_channel, dispatch. rewrite Hsend.
  repeat split.
  destruct m1, m2; simpl in Hs; try done; simpl;
    unfold TextMessage_metadata, PhotoMessage_metadata, FileMessage_metadata,
      MediaMessage_metadata;
    first [ rewrite Hs | destruct Hs as [-> ->] ]; reflexivity.
Qed.

Lemma occurs_in_here (s pre post : pystr) (before after : list pystr) :
  occurs_in s (before ++ (pre ++ s ++ post) :: after).
Proof.
  exists (pre ++ s ++ post), pre, post. split; [|done].
  apply in_or_app. right. by left.
Qed.

Lemma send_returns_report (channel : Channel) (m : Message)
    (recipient : pystr) (report : list pystr) :
  dispatch channel m recipient = Sent report ->
  report = delivery_report channel m recipient
  /\ send_message_to_channel channel m recipient = (report, inr tt).
Proof.
  unfold dispatch, send_message_to_channel.
  destruct (send_cases channel m recipient) as [-> | [msg ->]]; simpl;
    [intros [= <-]; done | done].
Qed.

(** C8. When the recipient passes the channel's validation, the lines the
    dispatch prints are the delivery report, and the report shows the
    channel name, the recipient as given, the [type] of the metadata and
    the text of the message; when that type is not [text] it also shows
    the file path and the format of the metadata. *)
Theorem delivery_report_contents (channel : Channel) (m : Message)
    (recipient : pystr) (report : list pystr) :
  dispatch channel m recipient = Sent report ->
  send_message_to_channel channel m recipient = (report, inr tt)
  /\ occurs_in (channel_name channel) report
  /\ occurs_in recipient report
  /\ occurs_in (str_of_get (metadata m !! "type")) report
  /\ occurs_in (text m) report
  /\ (metadata m !! "type" <> Some (VStr (py "text")) ->
      exists file_path format,
        metadata m !! "file_path" = Some (VStr file_path)
        /\ metadata m !! "format" = Some (VStr format)
        /\ occurs_in file_path report
        /\ occurs_in format report).
Proof.
  intros [-> Hrun]%send_returns_report. split; [exact Hrun|].
  rewrite metadata_type, metadata_file_path, metadata_format.
  unfold delivery_report. simpl str_of_get.
  repeat split.
  - apply (occurs_in_here _ (py "[") _ []).
  - rewrite (app_assoc (py "[")), (app_assoc _ (py "] Enviando para ")).
    apply (occurs_in_here _ _ _ []).
  - rewrite (app_assoc (py "[")), (app_assoc _ (py "] Enviando para ")),
      (app_assoc _ recipient), (app_assoc _ (py " -> tipo: ")).
    apply (occurs_in_here _ _ _ []).
  - rewrite (app_assoc (py "[")), (app_assoc _ (py "] Enviando para ")),
      (app_assoc _ recipient), (app_assoc _ (py " -> tipo: ")),
      (app_assoc _ (type_tag m)), (app_assoc _ (py ", texto: ")).
    rewrite <- (app_nil_r (text m)) at 2.
    apply (occurs_in_here _ _ _ []).
  - intros Hty.
    destruct m as [b|b md|b md|b md]; [by destruct Hty| | |];
      exists (_file_path md), (_format md);
      (split; [reflexivity|]); (split; [reflexivity|]);
      cbn [media_of app]; split.
    all: first [ apply (occurs_in_here _ _ _ [_] [_])
               | rewrite (app_assoc _ (_file_path md)),
                   (app_assoc _ (py " ("));
                 apply (occurs_in_here _ _ _ [_] [_]) ].
Qed.

(** The scenario of the specification: a video sent through Telegram. *)
Lemma telegram_video_report (now : datetime) :
  send_message_to_channel TelegramChannel
    (MediaMessage now (py "v") (py "/tmp/video.mp4") (py "mp4") (Some 120%Z))
    (py "@usuario_valido")
  = ([py "[Telegram] Enviando para @usuario_valido -> tipo: media, texto: v";
      py "  arquivo: /tmp/video.mp4 (mp4)";
      py "  -> Enviado com sucesso via Telegram."], inr tt).
Proof. vm_compute. reflexivity. Qed.

(** C6. The metadata of every message has the keys [type] and [text];
    [text] is the text given at construction and [type] is the tag of the
    concrete class: text, media, photo or file.  The media classes add
    [file_path] and [format]; [duration_seconds] is present exactly for a
    [MediaMessage] built with a duration, and a text message has none of
    the media keys. *)
Theorem metadata_keys (now : datetime) (t file_path format : pystr)
    (send_date : option datetime) (duration : option Z) :
  (let meta := metadata (TextMessage now t send_date) in
   meta !! "type" = Some (VStr (py "text"))
   /\ meta !! "text" = Some (VStr t)
   /\ meta !! "file_path" = None /\ meta !! "format" = None
   /\ meta !! "duration_seconds" = None)
  /\ (let meta := metadata (MediaMessage now t file_path format duration) in
      meta !! "type" = Some (VStr (py "media"))
      /\ meta !! "text" = Some (VStr t)
      /\ meta !! "file_path" = Some (VStr file_path)
      /\ meta !! "format" = Some (VStr format)
      /\ meta !! "duration_seconds" = VInt <$> duration)
  /\ (let meta := metadata (PhotoMessage now t file_path format) in
      meta !! "type" = Some (VStr (py "photo"))
      /\ meta !! "text" = Some (VStr t)
      /\ meta !! "file_path" = Some (VStr file_path)
      /\ meta !! "format" = Some (VStr format)
      /\ meta !! "duration_seconds" = None)
  /\ (let meta := metadata (FileMessage now t file_path format) in
      meta !! "type" = Some (VStr (py "file"))
      /\ meta !! "text" = Some (VStr t)
      /\ meta !! "file_path" = Some (VStr file_path)
      /\ meta !! "format" = Some (VStr format)
      /\ meta !! "duration_seconds" = None).
Proof.
  cbv zeta.
  repeat split;
    first [ apply metadata_type
          | apply (metadata_text (TextMessage now t send_date))
          | apply (metadata_text (MediaMessage now t file_path format duration))
          | apply (metadata_text (PhotoMessage now t file_path format))
          | apply (metadata_text (FileMessage now t file_path format))
          | apply metadata_file_path
          | apply metadata_format
          | apply metadata_duration ].
Qed.

(** C7. The metadata of a [PhotoMessage] or a [FileMessage] has no
    [duration_seconds] key.  Their constructors take a text, a file path
    and a format only and store no duration; and [metadata] drops the key
    whatever the instance holds. *)
Theorem photo_file_no_duration (now : datetime) (t file_path format : pystr) :
  metadata (PhotoMessage now t file_path format) !! "duration_seconds" = None
  /\ metadata (FileMessage now t file_path format) !! "duration_seconds" = None
  /\ (_duration_seconds <$> media_of (PhotoMessage now t file_path format))
     = Some None
  /\ (_duration_seconds <$> media_of (FileMessage now t file_path format))
     = Some None
  /\ (forall b md,
        metadata (PhotoObj b md) !! "duration_seconds" = None
        /\ metadata (FileObj b md) !! "duration_seconds" = None).
Proof.
  repeat split;
    first [ apply (metadata_duration (PhotoObj _ _))
          | apply (metadata_duration (FileObj _ _)) ].
Qed.

End Dispatch.

(** ** Recipient validation *)

Lemma trimmed_strip (s core : pystr) : trimmed s core <-> Py.strip s = core.
Proof.
  split.
  - intros (pre & post & -> & Hpre & Hpost & Hh & Ht).
    destruct core as [|c u].
    + apply StripFacts.strip_empty_iff. simpl.
      by rewrite forallb_app, Hpre, Hpost.
    + by apply StripFacts.strip_unique.
  - intros <-. destruct (StripFacts.strip_spec s) as (pre & post & Hs).
    by exists pre, post.
Qed.

Section Validators.
Context `{UnicodeData}.

Lemma startswith_plus (t : pystr) :
  Py.startswith t (py "+") = true <-> exists body, t = plus_sign :: body.
Proof.
  change (py "+") with [plus_sign]. destruct t as [|c u]; cbn [Py.startswith].
  - split; [done | by intros [? ?]].
  - replace (Py.startswith u []) with true by (by destruct u).
    rewrite andb_true_r, N.eqb_eq. split.
    + intros <-. by exists u.
    + by intros [body [= -> _]].
Qed.

Lemma isdigit_forallb (s : pystr) :
  Py.isdigit s = true <-> s <> [] /\ forallb Py.isdigit_char s = true.
Proof.
  destruct s as [|c u]; [split; [done | by intros [? _]]|].
  unfold Py.isdigit. split; [by intros Hf | by intros [_ Hf]].
Qed.

Lemma plus_is_no_digit : Py.isdigit_char plus_sign = false.
Proof. reflexivity. Qed.

(** When [_validate_phone] returns, in terms of the stripped recipient. *)
Lemma _validate_phone_accepts (recipient : pystr) :
  _validate_phone recipient = ret tt <->
  exists digits,
    (Py.strip recipient = digits \/ Py.strip recipient = plus_sign :: digits)
    /\ forallb Py.isdigit_char digits = true
    /\ (8 <= length digits <= 15)%nat.
Proof.
  unfold _validate_phone, Py.len, Py.slice_from_1.
  set (t := Py.strip recipient).
  destruct (Py.startswith t (py "+")) eqn:Hp.
  - apply startswith_plus in Hp as [body Hb]. rewrite Hb. simpl tail.
    split.
    + destruct (Py.isdigit body) eqn:Hd; simpl; [|done].
      destruct (_ && _) eqn:Hl; simpl; [|done]. intros _.
      apply isdigit_forallb in Hd as [_ Hd].
      exists body. split; [by right|]. split; [done|].
      apply andb_true_iff in Hl as [?%Z.leb_le ?%Z.leb_le]. lia.
    + intros (digits & [Hc | [= <-]] & Hd & Hl).
      * (* a string of digits does not start with the sign *)
        subst digits.
        cbn [forallb] in Hd. by rewrite plus_is_no_digit in Hd.
      * assert (Hi : Py.isdigit body = true).
        { apply isdigit_forallb. split; [|done].
          intros ->. simpl in Hl. lia. }
        rewrite Hi. simpl.
        replace (_ && _) with true; [done|]. symmetry.
        apply andb_true_iff. split; apply Z.leb_le; lia.
  - split.
    + destruct (Py.isdigit t) eqn:Hd; simpl; [|done].
      destruct (_ && _) eqn:Hl; simpl; [|done]. intros _.
      apply isdigit_forallb in Hd as [_ Hd].
      exists t. split; [by left|]. split; [done|].
      apply andb_true_iff in Hl as [?%Z.leb_le ?%Z.leb_le]. lia.
    + intros (digits & [<- | Hc] & Hd & Hl).
      * assert (Hi : Py.isdigit t = true).
        { apply isdigit_forallb. split; [|done].
          intros Ht. rewrite Ht in Hl. simpl in Hl. lia. }
        rewrite Hi. simpl.
        replace (_ && _) with true; [done|]. symmetry.
        apply andb_true_iff. split; apply Z.leb_le; lia.
      * assert (Py.startswith t (py "+") = true) as Hq
          by (apply startswith_plus; eauto).
        congruence.
Qed.

(** What [_validate_phone] accepts as the code stands: the recipients that,
    without their leading and trailing whitespace, are an optional plus
    sign followed by 8 to 15 characters that [str.isdigit] accepts; for
    every other recipient it raises [InvalidRecipientError]. *)
Theorem phone_validation (recipient : pystr) :
  (_validate_phone recipient = ret tt <->
   exists core digits,
     trimmed recipient core
     /\ (core = digits \/ core = plus_sign :: digits)
     /\ forallb Py.isdigit_char digits = true
     /\ (8 <= length digits <= 15)%nat)
  /\ (_validate_phone recipient
      = raise (InvalidRecipientError
                 (py "Telefone inválido: " ++ Py.repr recipient)) <->
      ~ exists core digits,
          trimmed recipient core
          /\ (core = digits \/ core = plus_sign :: digits)
          /\ forallb Py.isdigit_char digits = true
          /\ (8 <= length digits <= 15)%nat).
Proof.
  assert (Hiff : _validate_phone recipient = ret tt <->
                 exists core digits,
                   trimmed recipient core
                   /\ (core = digits \/ core = plus_sign :: digits)
                   /\ forallb Py.isdigit_char digits = true
                   /\ (8 <= length digits <= 15)%nat).
  { rewrite _validate_phone_accepts. split.
    - intros (digits & Hc & Hd & Hl).
      exists (Py.strip recipient), digits.
      by rewrite trimmed_strip.
    - intros (core & digits & Ht%trimmed_strip & Hc & Hd & Hl).
      exists digits. by rewrite Ht. }
  split; [exact Hiff|]. rewrite <- Hiff.
  destruct (_validate_phone_cases recipient) as [-> | ->];
    split; try done; intros Hn; by destruct Hn.
Qed.

(** C4. [_validate_username] returns exactly for the recipients that,
    without their leading and trailing whitespace, are non-empty and at
    most 50 characters long; a recipient that is empty once trimmed, or
    longer than 50 characters, raises [InvalidRecipientError]. *)
Theorem username_validation (recipient : pystr) :
  (_validate_username recipient = ret tt <->
   exists core,
     trimmed recipient core /\ core <> [] /\ (length core <= 50)%nat)
  /\ (_validate_username recipient
      = raise (InvalidRecipientError
                 (py "Usuário inválido: " ++ Py.repr recipient)) <->
      exists core,
        trimmed recipient core /\ (core = [] \/ (50 < length core)%nat)).
Proof.
  unfold _validate_username, Py.len.
  assert (Ht : trimmed recipient (Py.strip recipient))
    by by apply trimmed_strip.
  destruct (bool_decide (Py.strip recipient = [])) eqn:He; simpl.
  - apply bool_decide_eq_true in He. split; split; try done.
    + intros (core & Hc%trimmed_strip & Hne & _). congruence.
    + intros _. exists (Py.strip recipient). by rewrite He in *; auto.
  - apply bool_decide_eq_false in He.
    destruct (50 <? _)%Z eqn:Hl; split; split; try done.
    + intros (core & <-%trimmed_strip & _ & Hle).
      apply Z.ltb_lt in Hl. lia.
    + intros _. exists (Py.strip recipient). split; [done|]. right.
      apply Z.ltb_lt in Hl. lia.
    + intros _. exists (Py.strip recipient). repeat split; [done..|].
      apply Z.ltb_ge in Hl. lia.
    + intros (core & <-%trimmed_strip & [Hc | Hc]); [done|].
      apply Z.ltb_ge in Hl. lia.
Qed.

End Validators.

(** ** Telegram *)

Section Telegram.
Context `{UnicodeData}.

Lemma isdigit_char_ascii (c : N) :
  c < 128 -> Py.isdigit_char c = decimal_digit c.
Proof.
  intros Hc. unfold Py.isdigit_char, decimal_digit.
  replace (c <? 256) with true by (symmetry; apply N.ltb_lt; lia).
  replace (c =? 178) with false by (symmetry; apply N.eqb_neq; lia).
  replace (c =? 179) with false by (symmetry; apply N.eqb_neq; lia).
  replace (c =? 185) with false by (symmetry; apply N.eqb_neq; lia).
  by rewrite !orb_false_r.
Qed.

Lemma isdigit_ascii (s : pystr) :
  Forall (fun c => c < 128) s ->
  forallb Py.isdigit_char s = forallb decimal_digit s.
Proof.
  induction 1 as [|c s Hc _ IH]; simpl; [done|].
  by rewrite IH, isdigit_char_ascii.
Qed.

(** On ASCII recipients the phone rule is the pattern of the
    specification. *)
Lemma phone_validation_ascii (recipient : pystr) :
  Forall (fun c => c < 128) recipient ->
  _validate_phone recipient = ret tt <->
  matches_phone_pattern recipient = true.
Proof.
  intros Ha. rewrite _validate_phone_accepts. unfold matches_phone_pattern.
  assert (Hs : Forall (fun c => c < 128) (Py.strip recipient)).
  { destruct (StripFacts.strip_spec recipient) as (pre & post & Hr & _).
    rewrite Hr in Ha.
    by apply Forall_app in Ha as [_ [? _]%Forall_app]. }
  destruct (Py.strip recipient) as [|c u] eqn:Ht.
  - split.
    + intros (digits & [<- | ?] & _ & Hl); [simpl in Hl; lia | done].
    + simpl. done.
  - destruct (c =? plus_sign) eqn:Hc.
    + apply N.eqb_eq in Hc as ->. apply Forall_cons in Hs as [_ Hu].
      rewrite <- (isdigit_ascii u Hu). split.
      * intros (digits & [<- | [= <-]] & Hd & Hl).
        -- cbn [forallb] in Hd. by rewrite plus_is_no_digit in Hd.
        -- rewrite Hd. cbn [andb].
           apply andb_true_iff. split; apply Nat.leb_le; lia.
      * intros [[Hd Hl1%Nat.leb_le]%andb_true_iff Hl2%Nat.leb_le]%andb_true_iff.
        exists u. split; [by right|]. split; [done | lia].
    + apply N.eqb_neq in Hc. rewrite <- (isdigit_ascii (c :: u) Hs). split.
      * intros (digits & [<- | [= ? _]] & Hd & Hl); [|done].
        rewrite Hd. cbn [andb].
        apply andb_true_iff. split; apply Nat.leb_le; lia.
      * intros [[Hd Hl1%Nat.leb_le]%andb_true_iff Hl2%Nat.leb_le]%andb_true_iff.
        exists (c :: u). split; [by left|]. split; [done | lia].
Qed.


(** Both validators strip their argument themselves, so handing them the
    stripped recipient changes no verdict: only the text of the failure
    differs. *)
Lemma validators_ignore_stripping (recipient : pystr) :
  (_validate_phone (Py.strip recipient) = ret tt <->
   _validate_phone recipient = ret tt)
  /\ (_validate_username (Py.strip recipient) = ret tt <->
      _validate_username recipient = ret tt).
Proof.
  unfold _validate_phone, _validate_username.
  rewrite StripFacts.strip_idemp.
  split; (destruct (_ || _); [split; discriminate | done]).
Qed.

(** The text of an [InvalidRecipientError] ends in the repr of what the
    validator was handed: the recipient itself on WhatsApp, Facebook and
    Instagram, the stripped recipient on Telegram. *)
Lemma invalid_recipient_detail (channel : Channel) (m : Message)
    (recipient detail : pystr) :
  dispatch channel m recipient = Failed InvalidRecipient detail ->
  exists label,
    detail = label ++ Py.repr (match channel with
                               | TelegramChannel => Py.strip recipient
                               | _ => recipient
                               end).
Proof.
  unfold dispatch. rewrite send_shape.
  destruct channel; simpl validation;
    try destruct (telegram_takes_username _);
    first [ destruct (_validate_phone_cases recipient) as [->| ->]
          | destruct (_validate_username_cases recipient) as [->| ->]
          | destruct (_validate_phone_cases (Py.strip recipient)) as [->| ->]
          | destruct (_validate_username_cases (Py.strip recipient)) as [->| ->] ];
    cbv [bind ret raise outcome_of]; intros Hd;
    first [ discriminate
          | exists (py "Telefone inválido: "); congruence
          | exists (py "Usuário inválido: "); congruence ].
Qed.

End Telegram.

(** ** Closed instances *)


(** C3. The phone validation lets through a recipient that is no phone
    number: eight superscript twos have not one decimal digit and do not
    match the pattern of an optional plus sign and 8 to 15 decimal digits,
    yet [str.isdigit] holds of the character, under every Unicode table,
    so [_validate_phone] returns and WhatsApp delivers to that recipient.
    The comment of the validator asks for digits only, 8 to 15 of them;
    on ASCII recipients the validator keeps to the pattern
    ([phone_validation_ascii]). *)
Theorem superscripts_pass_phone_validation `{UnicodeData} (m : Message) :
  _validate_phone (repeat superscript_two 8) = ret tt
  /\ forallb decimal_digit (repeat superscript_two 8) = false
  /\ matches_phone_pattern (repeat superscript_two 8) = false
  /\ dispatch WhatsAppChannel m (repeat superscript_two 8)
     = Sent (delivery_report WhatsAppChannel m (repeat superscript_two 8)).
Proof.
  assert (Hv : _validate_phone (repeat superscript_two 8) = ret tt)
    by (vm_compute; reflexivity).
  split; [exact Hv|].
  split; [vm_compute; reflexivity|].
  split; [vm_compute; reflexivity|].
  unfold dispatch. rewrite send_shape. cbn [validation].
  rewrite Hv. reflexivity.
Qed.

(** C5. On Telegram the failure does not carry the recipient as supplied:
    for [" 12345 "] (phone path) and for a recipient of three spaces
    (username path) the text reported shows the stripped string, where the
    specification has the original input echoed.  WhatsApp and Facebook,
    handed the same recipients, report them untouched. *)
Theorem telegram_failure_echoes_stripped_recipient :
  @send_message_to_channel basic_tables TelegramChannel sample_text (py " 12345 ")
  = ([py "[Erro] destinatário inválido: Telefone inválido: '12345'"], inr tt)
  /\ @dispatch basic_tables TelegramChannel sample_text (py " 12345 ")
     <> Failed InvalidRecipient
          (py "Telefone inválido: " ++ @Py.repr basic_tables (py " 12345 "))
  /\ @send_message_to_channel basic_tables TelegramChannel sample_text (py "   ")
     = ([py "[Erro] destinatário inválido: Usuário inválido: ''"], inr tt)
  /\ @dispatch basic_tables TelegramChannel sample_text (py "   ")
     <> Failed InvalidRecipient
          (py "Usuário inválido: " ++ @Py.repr basic_tables (py "   "))
  /\ @send_message_to_channel basic_tables WhatsAppChannel sample_text (py " 12345 ")
     = ([py "[Erro] destinatário inválido: Telefone inválido: ' 12345 '"], inr tt)
  /\ @send_message_to_channel basic_tables FacebookChannel sample_text (py "   ")
     = ([py "[Erro] destinatário inválido: Usuário inválido: '   '"], inr tt).
Proof.
  repeat split; try (vm_compute; reflexivity); vm_compute; discriminate.
Qed.

Lemma delivery_report_contents_witness :
  let report :=
    [py "[Telegram] Enviando para @usuario_valido -> tipo: media, texto: v";
     py "  arquivo: /tmp/video.mp4 (mp4)";
     py "  -> Enviado com sucesso via Telegram."] in
  @dispatch basic_tables TelegramChannel sample_video (py "@usuario_valido")
  = Sent report
  /\ @send_message_to_channel basic_tables TelegramChannel sample_video
       (py "@usuario_valido") = (report, inr tt)
  /\ occurs_in (py "/tmp/video.mp4") report
  /\ occurs_in (py "mp4") report.
Proof.
  intros report.
  assert (Hd : @dispatch basic_tables TelegramChannel sample_video
                 (py "@usuario_valido") = Sent report)
    by (vm_compute; reflexivity).
  split; [exact Hd|].
  destruct (@delivery_report_contents basic_tables _ _ _ _ Hd)
    as (Hrun & _ & _ & _ & _ & Hmedia).
  split; [exact Hrun|].
  destruct Hmedia as (fp & fmt & Hfp & Hfmt & Hofp & Hofmt).
  { vm_compute. discriminate. }
  vm_compute in Hfp, Hfmt.
  injection Hfp as <-. injection Hfmt as <-.
  split; [exact Hofp | exact Hofmt].
Defined.

Lemma dispatch_ignores_send_date_witness :
  same_but_send_date (TextMessage sample_now (py "hi") None)
                     (TextMessage sample_later (py "hi") None)
  /\ send_date (TextMessage sample_now (py "hi") None)
     <> send_date (TextMessage sample_later (py "hi") None)
  /\ @send_message_to_channel basic_tables WhatsAppChannel
       (TextMessage sample_now (py "hi") None) (py "+5511999998888")
     = @send_message_to_channel basic_tables WhatsAppChannel
         (TextMessage sample_later (py "hi") None) (py "+5511999998888").
Proof.
  split; [reflexivity|]. split; [discriminate|].
  apply (@dispatch_ignores_send_date basic_tables WhatsAppChannel).
  reflexivity.
Defined.

(** * Further properties of the code *)

(** ** Which recipients the channels accept *)

Section Acceptance.
Context `{UnicodeData}.

(** A send returns exactly when its validation step does. *)
Lemma send_returns_iff (channel : Channel) (m : Message) (recipient : pystr) :
  snd (send channel m recipient) = inr tt <->
  validation channel recipient = ret tt.
Proof.
  rewrite send_shape.
  destruct (validation_cases channel recipient) as [-> | [msg ->]];
    cbv [bind ret raise snd]; split; (done || discriminate).
Qed.

Lemma _validate_username_accepts (recipient : pystr) :
  _validate_username recipient = ret tt <->
  Py.strip recipient <> [] /\ (length (Py.strip recipient) <= 50)%nat.
Proof.
  unfold _validate_username, Py.len.
  destruct (bool_decide (Py.strip recipient = [])) eqn:He; cbn [orb].
  - apply bool_decide_eq_true in He. split; [discriminate | by intros [? _]].
  - apply bool_decide_eq_false in He.
    destruct (50 <? _)%Z eqn:Hl.
    + apply Z.ltb_lt in Hl. split; [discriminate | intros [_ ?]; lia].
    + apply Z.ltb_ge in Hl. split; [intros _; split; [done | lia] | done].
Qed.

Lemma replace_absent (s : pystr) (old : N) (new : pystr) :
  Forall (fun c => c <> old) s -> Py.replace s old new = s.
Proof.
  induction 1 as [|c s Hc _ IH]; [done|].
  unfold Py.replace in *. cbn [flat_map].
  apply N.eqb_neq in Hc. rewrite Hc, IH. reflexivity.
Qed.

Lemma digits_exclude (c0 : N) (s : pystr) :
  Py.isdigit_char c0 = false ->
  forallb Py.isdigit_char s = true ->
  Forall (fun c => c <> c0) s.
Proof.
  intros H0 Hs. apply Forall_forall. intros c Hc ->.
  rewrite forallb_forall in Hs. apply list_elem_of_In in Hc.
  specialize (Hs _ Hc). congruence.
Qed.

Lemma startswith_one (t : pystr) (c : N) :
  Py.startswith t [c] = match t with
                        | d :: _ => c =? d
                        | [] => false
                        end.
Proof.
  destruct t as [|d u]; [done|]. cbn [Py.startswith].
  replace (Py.startswith u []) with true by (by destruct u).
  apply andb_true_r.
Qed.

(** Telegram's test sends a well-formed phone number to the phone
    validator. *)
Lemma phone_shaped_takes_phone (t digits : pystr) :
  t = digits \/ t = plus_sign :: digits ->
  forallb Py.isdigit_char digits = true ->
  digits <> [] ->
  telegram_takes_username t = false.
Proof.
  intros Ht Hd Hne. unfold telegram_takes_username.
  change (py "@") with [64]. change (py "+") with [plus_sign].
  rewrite !startswith_one.
  destruct Ht as [-> | ->].
  - destruct digits as [|d u]; [done|].
    cbn [forallb] in Hd. apply andb_true_iff in Hd as [Hd Hu].
    assert ((64 =? d) = false) as ->.
    { apply N.eqb_neq. intros <-. by vm_compute in Hd. }
    assert ((plus_sign =? d) = false) as ->.
    { apply N.eqb_neq. intros <-. by rewrite plus_is_no_digit in Hd. }
    rewrite replace_absent.
    + unfold Py.isdigit. cbn [forallb]. by rewrite Hd, Hu.
    + apply digits_exclude; [apply plus_is_no_digit|].
      cbn [forallb]. by rewrite Hd, Hu.
  - rewrite N.eqb_refl. reflexivity.
Qed.

(** X1. Every recipient WhatsApp accepts, Telegram accepts too, whatever
    the messages: a well-formed phone number is never taken for a username
    by Telegram's test. *)
Theorem whatsapp_recipients_pass_telegram (m m' : Message)
    (recipient : pystr) :
  snd (send WhatsAppChannel m recipient) = inr tt ->
  snd (send TelegramChannel m' recipient) = inr tt.
Proof.
  rewrite !send_returns_iff. cbn [validation]. intros Hp.
  destruct (proj1 (_validate_phone_accepts _) Hp) as (digits & Hs & Hd & Hl).
  rewrite (phone_shaped_takes_phone _ digits Hs Hd).
  - by apply validators_ignore_stripping.
  - intros ->. simpl in Hl. lia.
Qed.

(** X2. Every recipient Telegram accepts, Facebook and Instagram accept
    too: what passes the phone validator is short enough and non-empty,
    and the username validator is the same on the three channels. *)
Theorem telegram_recipients_pass_username (m m' : Message)
    (recipient : pystr) :
  snd (send TelegramChannel m recipient) = inr tt ->
  snd (send FacebookChannel m' recipient) = inr tt
  /\ snd (send InstagramChannel m' recipient) = inr tt.
Proof.
  rewrite !send_returns_iff. cbn [validation]. intros Ht.
  assert (Hu : _validate_username recipient = ret tt); [|done].
  destruct (telegram_takes_username _).
  - by apply validators_ignore_stripping.
  - apply _validate_phone_accepts in Ht as (digits & Hs & Hd & Hl).
    rewrite StripFacts.strip_idemp in Hs.
    apply _validate_username_accepts.
    destruct Hs as [-> | ->]; split; simpl; try lia.
    + intros ->. simpl in Hl. lia.
    + done.
Qed.

Lemma strip_padding (pre s post : pystr) :
  forallb Py.isspace_char pre = true ->
  forallb Py.isspace_char post = true ->
  Py.strip (pre ++ s ++ post) = Py.strip s.
Proof.
  intros Hpre Hpost. apply trimmed_strip.
  destruct (StripFacts.strip_spec s) as (p & q & Hs & Hp & Hq & Hh & Ht).
  exists (pre ++ p), (q ++ post). repeat split; try done.
  - rewrite Hs at 1. by rewrite <- !app_assoc.
  - by rewrite forallb_app, Hpre, Hp.
  - by rewrite forallb_app, Hq, Hpost.
Qed.

(** The verdict of a validation step is the verdict on the stripped
    recipient. *)
Lemma validation_of_stripped (channel : Channel) (recipient : pystr) :
  validation channel recipient = ret tt <->
  validation channel (Py.strip recipient) = ret tt.
Proof.
  destruct channel; cbn [validation]; rewrite ?StripFacts.strip_idemp;
    try done; symmetry; apply validators_ignore_stripping.
Qed.

(** X3. Whitespace around a recipient never changes a channel's verdict:
    the padded recipient is accepted exactly when the bare one is. *)
Theorem padding_keeps_verdict (channel : Channel) (m : Message)
    (pre recipient post : pystr) :
  forallb Py.isspace_char pre = true ->
  forallb Py.isspace_char post = true ->
  snd (send channel m (pre ++ recipient ++ post)) = inr tt <->
  snd (send channel m recipient) = inr tt.
Proof.
  intros Hpre Hpost. rewrite !send_returns_iff.
  rewrite (validation_of_stripped channel (pre ++ recipient ++ post)).
  rewrite strip_padding by done.
  symmetry. apply validation_of_stripped.
Qed.

(** X4. Whether a send goes through depends on the channel and the
    recipient only, never on the message; and when it does not, the whole
    console output of the dispatch is the same for every message. *)
Theorem verdict_ignores_message (channel : Channel) (m m' : Message)
    (recipient : pystr) :
  (snd (send channel m recipient) = inr tt <->
   snd (send channel m' recipient) = inr tt)
  /\ (snd (send channel m recipient) = inr tt
      \/ send_message_to_channel channel m recipient
         = send_message_to_channel channel m' recipient).
Proof.
  split; [by rewrite !send_returns_iff|].
  unfold send_message_to_channel. rewrite !send_shape.
  destruct (validation_cases channel recipient) as [-> | [msg ->]];
    [left | right]; reflexivity.
Qed.

(** X5. No partial send: a dispatch that fails has printed nothing of the
    report, only the one error line; a dispatch that goes through prints two
    lines for a text message and three for a message with a file. *)
Theorem dispatch_line_count (channel : Channel) (m : Message)
    (recipient : pystr) :
  match dispatch channel m recipient with
  | Sent report =>
      stdout (send_message_to_channel channel m recipient) = report
      /\ length report = match media_of m with
                         | Some _ => 3%nat
                         | None => 2%nat
                         end
  | Failed _ _ =>
      stdout (send channel m recipient) = []
      /\ length (stdout (send_message_to_channel channel m recipient)) = 1%nat
  end.
Proof.
  unfold dispatch, send_message_to_channel.
  destruct (send_cases channel m recipient) as [-> | [msg ->]].
  - cbv [outcome_of try_except stdout fst]. split; [done|].
    unfold delivery_report. by destruct (media_of m).
  - split; reflexivity.
Qed.

(** X14. No channel accepts a blank or an overlong recipient: whenever a
    send goes through, the recipient without its surrounding whitespace has
    between 1 and 50 characters (between 8 and 16 on WhatsApp). *)
Theorem accepted_recipient_length (channel : Channel) (m : Message)
    (recipient : pystr) :
  snd (send channel m recipient) = inr tt ->
  (1 <= length (Py.strip recipient) <= 50)%nat
  /\ (channel = WhatsAppChannel ->
      (8 <= length (Py.strip recipient) <= 16)%nat).
Proof.
  rewrite send_returns_iff.
  assert (Hphone : forall r, _validate_phone r = ret tt ->
                             (8 <= length (Py.strip r) <= 16)%nat).
  { intros r Hr.
    apply _validate_phone_accepts in Hr as [digits [[-> | ->] [_ Hl]]];
      simpl; lia. }
  assert (Huser : forall r, _validate_username r = ret tt ->
                            (1 <= length (Py.strip r) <= 50)%nat).
  { intros r Hr. apply _validate_username_accepts in Hr as [Hne Hl].
    destruct (Py.strip r); [done | simpl in *; lia]. }
  destruct channel; cbn [validation]; intros Hv.
  - apply Hphone in Hv. split; [lia | done].
  - split; [|done]. rewrite <- StripFacts.strip_idemp.
    destruct (telegram_takes_username _).
    + by apply Huser.
    + apply Hphone in Hv. lia.
  - split; [by apply Huser | done].
  - split; [by apply Huser | done].
Qed.

End Acceptance.

(** ** The keys of the metadata *)

(** X6. The metadata of a message has exactly the keys of its class and no
    other: [type] and [text]; for the three media classes also [file_path]
    and [format]; and [duration_seconds] only for a [MediaMessage] that
    holds a duration.  The send date is never among them. *)
Theorem metadata_key_set (m : Message) :
  dom (metadata m)
  = match m with
    | TextObj _ => {[ "type"; "text" ]}
    | MediaObj _ md =>
        match _duration_seconds md with
        | Some _ =>
            {[ "type"; "text"; "file_path"; "format"; "duration_seconds" ]}
        | None => {[ "type"; "text"; "file_path"; "format" ]}
        end
    | PhotoObj _ _ | FileObj _ _ =>
        {[ "type"; "text"; "file_path"; "format" ]}
    end.
Proof.
  destruct m as [b|b md|b md|b md]; cbn [metadata];
    unfold TextMessage_metadata, PhotoMessage_metadata, FileMessage_metadata,
      MediaMessage_metadata;
    try destruct (_duration_seconds md);
    rewrite ?dom_delete_L, ?dom_insert_L, ?dom_singleton_L;
    set_solver.
Qed.

(** ** The interactive shell *)

Section ShellFacts.
Context `{UnicodeData}.
Variable clock : nat -> datetime.
Variable int : pystr -> option Z.

Local Open Scope io_scope.

(** What one call of [get_user_input] does. *)
Lemma get_user_input_run (prompt : pystr) (default : option pystr) (w : world) :
  get_user_input prompt default w
  = match stdin w with
    | [] => ([Prompted (shown prompt default)], inl EOFError, w)
    | line :: rest =>
        ([Prompted (shown prompt default)], inr (answer default line),
         {| stdin := rest; clock_reads := clock_reads w |})
    end.
Proof.
  unfold get_user_input, shown, answer, io_bind, input, io_ret.
  destruct default as [[|c d]|]; destruct (stdin w) as [|[|a l] rest];
    reflexivity.
Qed.

Lemma answer_nonempty (d line : pystr) : d <> [] -> answer (Some d) line <> [].
Proof. destruct d, line; done. Qed.

(** *** A small logic of runs *)

Lemma ensures_ret {A} (a : A) (Q : A -> Prop) : Q a -> ensures (io_ret a) Q.
Proof. intros Ha w. by split. Qed.

Lemma ensures_bind {A B} (m : IO A) (k : A -> IO B) (Q : A -> Prop)
    (R : B -> Prop) :
  ensures m Q -> (forall a, Q a -> ensures (k a) R) -> ensures (io_bind m k) R.
Proof.
  intros Hm Hk w. unfold io_bind. specialize (Hm w).
  destruct (m w) as [[ev [e|a]] w1]; [done|].
  destruct Hm as [Ha Hl]. specialize (Hk a Ha w1).
  destruct (k a w1) as [[ev' [e|b]] w2]; [done|].
  destruct Hk as [Hb Hl']. split; [done | lia].
Qed.

Lemma ensures_weaken {A} (m : IO A) (Q R : A -> Prop) :
  ensures m Q -> (forall a, Q a -> R a) -> ensures m R.
Proof.
  intros Hm HQR w. specialize (Hm w).
  destruct (m w) as [[ev [e|a]] w1]; [done|].
  destruct Hm as [Ha Hl]. split; auto.
Qed.

Lemma ensures_print (line : pystr) : ensures (io_print line) (fun _ => True).
Proof. intros w. by split. Qed.

Lemma ensures_now : ensures (datetime_now clock) (fun _ => True).
Proof. intros w. by split. Qed.

Lemma ensures_get_user_input (prompt : pystr) (default : option pystr) :
  ensures (get_user_input prompt default)
    (fun s => forall d, default = Some d -> d <> [] -> s <> []).
Proof.
  intros w. rewrite get_user_input_run.
  destruct (stdin w) as [|line rest] eqn:Hw; [done|]. split.
  - intros d -> Hd. by apply answer_nonempty.
  - simpl. lia.
Qed.

(** The dispatch never raises, so neither does it from the shell. *)
Lemma ensures_dispatch (channel : Channel) (m : Message) (recipient : pystr) :
  ensures (lift (send_message_to_channel channel m recipient)) (fun _ => True).
Proof.
  intros w. unfold lift, send_message_to_channel.
  destruct (send_cases channel m recipient) as [-> | [msg ->]];
    cbv [try_except report_error print snd]; by split.
Qed.

Lemma literal_nonempty (s : pystr) :
  (match s with [] => false | _ => true end) = true -> s <> [].
Proof. by destruct s. Qed.

Ltac has_default Hx :=
  apply (Hx _ eq_refl); apply literal_nonempty; vm_compute; reflexivity.

Ltac run_step :=
  lazymatch goal with
  | |- ensures (io_bind (io_print _) _) _ =>
      eapply ensures_bind; [apply ensures_print | intros _ _]
  | |- ensures (io_bind (get_user_input _ _) _) _ =>
      eapply ensures_bind;
      [apply ensures_get_user_input
      | let x := fresh "line" in let Hx := fresh "Hline" in intros x Hx]
  | |- ensures (io_bind (datetime_now _) _) _ =>
      eapply ensures_bind;
      [apply ensures_now | let x := fresh "now" in intros x _]
  | |- ensures (io_bind (lift (send_message_to_channel _ _ _)) _) _ =>
      eapply ensures_bind; [apply ensures_dispatch | intros _ _]
  | |- ensures (lift (send_message_to_channel _ _ _)) _ =>
      apply ensures_dispatch
  | |- ensures (io_print _) _ => apply ensures_print
  | |- ensures (io_ret _) _ => apply ensures_ret
  | |- ensures (if bool_decide _ then _ else _) _ => case_bool_decide
  end.

(** X8. [create_message_from_input] raises nothing but [EOFError], and that
    only when the input runs out: a duration that is no number is replaced
    by 60.  Every message it returns is well formed: its text, file path and
    format are never empty (an empty line means the default), a video has a
    duration, a photo and a file have none. *)
Theorem created_messages_are_well_formed :
  ensures (create_message_from_input clock int)
    (fun r => match r with
              | Some m => created_well m
              | None => True
              end).
Proof.
  unfold create_message_from_input.
  do 8 run_step. run_step.
  { do 2 run_step. split; [|done]. has_default Hline0. }
  destruct (_ || _); [|by do 2 run_step].
  do 2 run_step. run_step.
  { do 2 run_step. repeat split; [has_default Hline0 | has_default Hline1
                                   | has_default Hline2]. }
  run_step.
  { run_step.
    eapply (ensures_bind _ _ (fun _ => True)).
    { destruct (int line3); [by apply ensures_ret|].
      run_step. by apply ensures_ret. }
    intros d _. do 2 run_step.
    repeat split; [has_default Hline0 | has_default Hline1
                   | has_default Hline2 | by eexists]. }
  run_step; [|by run_step].
  do 2 run_step. repeat split; [has_default Hline0 | has_default Hline1
                                 | has_default Hline2].
Qed.

Lemma ensures_create_message :
  ensures (create_message_from_input clock int) (fun _ => True).
Proof.
  unfold create_message_from_input.
  do 8 run_step. run_step; [by do 2 run_step|].
  destruct (_ || _); [|by do 2 run_step].
  do 2 run_step. run_step; [by do 2 run_step|].
  run_step; [|run_step; by repeat run_step].
  run_step.
  eapply (ensures_bind _ _ (fun _ => True)).
  { destruct (int line3); [by apply ensures_ret|].
    run_step. by apply ensures_ret. }
  intros d _. by do 2 run_step.
Qed.

Lemma ensures_main_send :
  ensures (main_send clock int) (fun _ => True).
Proof.
  unfold main_send.
  eapply ensures_bind; [apply ensures_create_message|].
  intros [m|] _; [|by run_step].
  do 7 run_step.
  destruct (channels !! line) as [[channel name]|]; [|run_step].
  do 3 run_step.
Qed.

Lemma ensures_main_tests : ensures (main_tests clock) (fun _ => True).
Proof. unfold main_tests. do 10 run_step. Qed.

(** *** Running the shell step by step *)

Lemma emit_emit {A} (pre pre' : list event)
    (run : list event * (exn + A) * world) :
  emit pre (emit pre' run) = emit (pre ++ pre') run.
Proof. destruct run as [[ev r] w]. unfold emit. by rewrite app_assoc. Qed.

Lemma emit_nil {A} (run : list event * (exn + A) * world) : emit [] run = run.
Proof. by destruct run as [[ev r] w]. Qed.

Lemma emit_result {A} (pre : list event)
    (run : list event * (exn + A) * world) :
  snd (fst (emit pre run)) = snd (fst run) /\ snd (emit pre run) = snd run
  /\ fst (fst (emit pre run)) = pre ++ fst (fst run).
Proof. by destruct run as [[ev r] w]. Qed.

Lemma io_bind_print {B} (line : pystr) (k : unit -> IO B) (w : world) :
  io_bind (io_print line) k w = emit [Printed line] (k tt w).
Proof. reflexivity. Qed.

Lemma io_bind_ret {A B} (a : A) (k : A -> IO B) (w : world) :
  io_bind (io_ret a) k w = k a w.
Proof. unfold io_bind, io_ret. by destruct (k a w) as [[ev r] w']. Qed.

Lemma io_bind_assoc {A B C} (m : IO A) (k1 : A -> IO B) (k2 : B -> IO C)
    (w : world) :
  io_bind (io_bind m k1) k2 w = io_bind m (fun a => io_bind (k1 a) k2) w.
Proof.
  unfold io_bind. destruct (m w) as [[ev [e|a]] w1]; [done|].
  destruct (k1 a w1) as [[ev1 [e|b]] w2]; [done|].
  destruct (k2 b w2) as [[ev2 r] w3]. by rewrite app_assoc.
Qed.

Lemma io_bind_now {B} (k : datetime -> IO B) (lines : list pystr) (n : nat) :
  io_bind (datetime_now clock) k {| stdin := lines; clock_reads := n |}
  = k (clock n) {| stdin := lines; clock_reads := S n |}.
Proof.
  unfold io_bind, datetime_now. cbn [stdin clock_reads].
  by destruct (k _ _) as [[ev r] w'].
Qed.

Lemma io_bind_get_user_input {B} (prompt : pystr) (default : option pystr)
    (k : pystr -> IO B) (line : pystr) (rest : list pystr) (n : nat) :
  io_bind (get_user_input prompt default) k
    {| stdin := line :: rest; clock_reads := n |}
  = emit [Prompted (shown prompt default)]
      (k (answer default line) {| stdin := rest; clock_reads := n |}).
Proof. unfold io_bind. rewrite get_user_input_run. reflexivity. Qed.

Lemma io_bind_get_user_input_eof {B} (prompt : pystr)
    (default : option pystr) (k : pystr -> IO B) (n : nat) :
  io_bind (get_user_input prompt default) k
    {| stdin := []; clock_reads := n |}
  = ([Prompted (shown prompt default)], inl EOFError,
     {| stdin := []; clock_reads := n |}).
Proof. unfold io_bind. rewrite get_user_input_run. reflexivity. Qed.

(** X7. With a non-empty default, [get_user_input] shows the default in its
    prompt, reads exactly one line and returns that line, or the default
    when the line is empty: it never returns the empty string.  With no
    line left it raises [EOFError].  An empty default counts as none. *)
Theorem get_user_input_default (prompt d line : pystr) (rest : list pystr)
    (n : nat) :
  d <> [] ->
  get_user_input prompt (Some d) {| stdin := line :: rest; clock_reads := n |}
  = ([Prompted (prompt ++ py " (Padrão: " ++ d ++ py "): ")],
     inr (match line with [] => d | _ :: _ => line end),
     {| stdin := rest; clock_reads := n |})
  /\ match line with [] => d | _ :: _ => line end <> []
  /\ get_user_input prompt (Some d) {| stdin := []; clock_reads := n |}
     = ([Prompted (prompt ++ py " (Padrão: " ++ d ++ py "): ")],
        inl EOFError, {| stdin := []; clock_reads := n |})
  /\ get_user_input prompt (Some []) = get_user_input prompt None.
Proof.
  intros Hd. rewrite !get_user_input_run. cbn [stdin clock_reads].
  destruct d as [|c d]; [done|].
  repeat split; try reflexivity.
  by destruct line.
Qed.

(** X9. The video path of [create_message_from_input]: after the choice 3
    it reads the text, the file path, the format and the duration, each
    empty line standing for its default, and returns a [MediaMessage]
    stamped with the clock.  The duration is the number read, or 60 when
    [int] rejects it, in which case, and only then, the warning is
    printed. *)
Theorem create_video (t p f d : pystr) (rest : list pystr) (n : nat) :
  let w := {| stdin := py "3" :: t :: p :: f :: d :: rest; clock_reads := n |} in
  let typed := answer (Some (py "60")) d in
  let run := create_message_from_input clock int w in
  snd (fst run)
  = inr (Some (MediaMessage (clock n)
                 (answer (Some (py "Mensagem de teste")) t)
                 (answer (Some (py "/tmp/arquivo_teste")) p)
                 (answer (Some (py "txt")) f)
                 (Some (match int typed with
                        | Some k => k
                        | None => 60%Z
                        end))))
  /\ snd run = {| stdin := rest; clock_reads := S n |}
  /\ (In (Printed (py "[Aviso] Duração inválida. Usando 60 segundos."))
         (fst (fst run)) <-> int typed = None).
Proof.
  cbv zeta. unfold create_message_from_input.
  rewrite !io_bind_print, !io_bind_get_user_input.
  change (answer (Some (py "1")) (py "3")) with (py "3").
  change (bool_decide (py "3" = py "1")) with false.
  change (bool_decide (py "3" = py "2")) with false.
  change (bool_decide (py "3" = py "3")) with true.
  cbn [orb]. rewrite !io_bind_get_user_input.
  destruct (int (answer (Some (py "60")) d)) as [k|] eqn:Hint.
  - rewrite io_bind_ret, io_bind_now. unfold io_ret.
    rewrite !emit_emit. cbn [emit app fst snd].
    repeat split; try done.
    intros Hin. repeat (destruct Hin as [Hin|Hin]; [discriminate Hin|]).
    destruct Hin.
  - rewrite io_bind_assoc, io_bind_print, io_bind_ret, io_bind_now.
    unfold io_ret.
    rewrite !emit_emit. cbn [emit app fst snd].
    repeat split; try done.
    intros _. do 11 right. by left.
Qed.

(** X10. A type choice that is none of 1 to 4 gives no message: the error
    line is the last thing printed, but the text line has been read before
    the choice is looked at, and the clock is not read. *)
Theorem create_rejects_unknown_type (c t : pystr) (rest : list pystr)
    (n : nat) :
  c <> [] -> c <> py "1" -> c <> py "2" -> c <> py "3" -> c <> py "4" ->
  let run := create_message_from_input clock int
               {| stdin := c :: t :: rest; clock_reads := n |} in
  snd (fst run) = inr None
  /\ snd run = {| stdin := rest; clock_reads := n |}
  /\ last (fst (fst run)) = Some (Printed (py "[Erro] Opção de mensagem inválida.")).
Proof.
  intros H0 H1 H2 H3 H4. cbv zeta. unfold create_message_from_input.
  rewrite !io_bind_print, !io_bind_get_user_input.
  assert (answer (Some (py "1")) c = c) as -> by (by destruct c).
  rewrite !bool_decide_eq_false_2 by done. cbn [orb].
  rewrite io_bind_print. unfold io_ret.
  rewrite !emit_emit. cbn [emit app fst snd].
  repeat split.
Qed.

(** *** The loop of [main] *)

Lemma ends_well_emit (pre : list event)
    (run : list event * (exn + option unit) * world) :
  ends_well run -> ends_well (emit pre run).
Proof.
  destruct run as [[ev r] w]. unfold ends_well, emit.
  intros [[-> Hl] | [-> Hw]]; [left | right]; split; try done.
  rewrite last_app, Hl. reflexivity.
Qed.

(** What a turn of the loop does after the main choice has been read and
    was not 0. *)
Lemma ensures_turn (main_choice : pystr) :
  ensures (if bool_decide (main_choice = py "1") then main_send clock int
           else if bool_decide (main_choice = py "2") then main_tests clock
           else io_print (py "[Erro] Opção inválida. Tente novamente."))
    (fun _ => True).
Proof.
  repeat case_bool_decide;
    auto using ensures_main_send, ensures_main_tests, ensures_print.
Qed.

Lemma main_loop_ends (fuel : nat) (w : world) :
  (length (stdin w) < fuel)%nat -> ends_well (main_loop clock int fuel w).
Proof.
  revert w. induction fuel as [|fuel IH]; intros [lines n] Hl; [simpl in Hl; lia|].
  cbn [main_loop]. rewrite !io_bind_print.
  do 7 apply ends_well_emit.
  destruct lines as [|line rest].
  { rewrite io_bind_get_user_input_eof. by right. }
  rewrite io_bind_get_user_input. apply ends_well_emit.
  case_bool_decide.
  { rewrite io_bind_print. unfold io_ret. by left. }
  pose proof (ensures_turn (answer (Some (py "1")) line)
                {| stdin := rest; clock_reads := n |}) as Ht.
  unfold io_bind at 1.
  lazymatch type of Ht with
  | match ?t with _ => _ end => destruct t as [[ev [e|[]]] w2]
  end.
  { destruct Ht as [-> Hw]. by right. }
  destruct Ht as [_ Hle]. cbn [stdin length] in Hl, Hle.
  change (ends_well (emit ev (main_loop clock int fuel w2))).
  apply ends_well_emit, IH. lia.
Qed.

Lemma main_loop_fuel (fuel fuel' : nat) (w : world) :
  (length (stdin w) < fuel)%nat -> (length (stdin w) < fuel')%nat ->
  main_loop clock int fuel w = main_loop clock int fuel' w.
Proof.
  revert fuel' w. induction fuel as [|fuel IH]; intros fuel' [lines n] Hl Hl';
    [simpl in Hl; lia|].
  destruct fuel' as [|fuel']; [simpl in Hl'; lia|].
  cbn [main_loop]. rewrite !io_bind_print. do 7 f_equal.
  destruct lines as [|line rest].
  { by rewrite !io_bind_get_user_input_eof. }
  rewrite !io_bind_get_user_input. f_equal.
  case_bool_decide; [done|].
  pose proof (ensures_turn (answer (Some (py "1")) line)
                {| stdin := rest; clock_reads := n |}) as Ht.
  unfold io_bind at 1 2.
  lazymatch type of Ht with
  | match ?t with _ => _ end => destruct t as [[ev [e|[]]] w2]
  end; [done|].
  destruct Ht as [_ Hle]. cbn [stdin length] in Hl, Hl', Hle.
  rewrite (IH fuel' w2) by lia. reflexivity.
Qed.

(** X11. [main] terminates on every input: a turn of its loop reads at
    least one line, so the turns the input can feed are enough, and more
    fuel changes nothing.  It ends in one of two ways only: it returns,
    and then the last thing on the terminal is the farewell line printed
    for the choice 0; or the input runs out and [EOFError] escapes.  No
    other exception leaves it: a rejected recipient or a bad duration
    never stops the shell. *)
Theorem main_terminates (fuel : nat) (w : world) :
  (length (stdin w) < fuel)%nat ->
  main_loop clock int fuel w = main clock int w
  /\ ends_well (main clock int w).
Proof.
  intros Hl. unfold main. split.
  - apply main_loop_fuel; [done | lia].
  - apply main_loop_ends. lia.
Qed.

(** *** The send flow of the menu *)

Lemma io_bind_run {A B} (m : IO A) (k : A -> IO B) (w w1 : world)
    (ev : list event) (a : A) :
  m w = (ev, inr a, w1) -> io_bind m k w = emit ev (k a w1).
Proof. intros Hm. unfold io_bind. by rewrite Hm. Qed.

(** The text path of [create_message_from_input]. *)
Lemma create_text_run (t : pystr) (lines : list pystr) (n : nat) :
  exists ev,
    create_message_from_input clock int
      {| stdin := py "1" :: t :: lines; clock_reads := n |}
    = (ev,
       inr (Some (TextMessage (clock n)
                    (answer (Some (py "Mensagem de teste")) t) None)),
       {| stdin := lines; clock_reads := S n |}).
Proof.
  unfold create_message_from_input.
  rewrite !io_bind_print, !io_bind_get_user_input.
  change (answer (Some (py "1")) (py "1")) with (py "1").
  change (bool_decide (py "1" = py "1")) with true. cbv iota.
  rewrite io_bind_now. unfold io_ret. rewrite !emit_emit.
  eexists. reflexivity.
Qed.

(** The names in the dictionary of [main] are the names the channels print
    in their reports. *)
Lemma channels_lookup (c : pystr) (channel : Channel) (name : pystr) :
  channels !! c = Some (channel, name) ->
  name = channel_name channel
  /\ (c = py "1" \/ c = py "2" \/ c = py "3" \/ c = py "4").
Proof.
  unfold channels. rewrite !lookup_insert_Some, lookup_singleton_Some.
  intros [[<- [= <- <-]] | [_ [[<- [= <- <-]] | [_ [[<- [= <- <-]]
                                                    | [_ [<- [= <- <-]]]]]]]];
    split; auto.
Qed.

(** The keys of the dictionary of [main]. *)
Lemma channels_no_key (c : pystr) :
  channels !! c = None <->
  c <> py "1" /\ c <> py "2" /\ c <> py "3" /\ c <> py "4".
Proof.
  unfold channels. rewrite !lookup_insert_None, lookup_singleton_None.
  naive_solver.
Qed.

(** X12. In the send flow, whatever message has been created (text, photo,
    video or file), a channel choice that is no key of the dictionary ends
    the turn at once: after what the creation wrote, the turn writes the
    channel menu, the prompt for the channel and the error line, and
    nothing else, so nothing is dispatched and no recipient is asked for;
    it returns normally, having read the channel line only, and the clock
    is left as the creation left it. *)
Theorem main_send_unknown_channel (w w1 : world) (ev : list event)
    (message : Message) (c : pystr) (rest : list pystr) :
  create_message_from_input clock int w = (ev, inr (Some message), w1) ->
  stdin w1 = c :: rest ->
  channels !! answer (Some (py "1")) c = None ->
  main_send clock int w
  = (ev ++ [Printed (newline :: py "--- Escolher Canal ---");
            Printed (py "Canais Disponíveis:");
            Printed (py "  1: WhatsApp (Telefone)");
            Printed (py "  2: Telegram (Telefone ou Usuário)");
            Printed (py "  3: Facebook (Usuário)");
            Printed (py "  4: Instagram (Usuário)");
            Prompted (py "Escolha o canal (1-4) (Padrão: 1): ");
            Printed (py "[Erro] Opção de canal inválida.")],
     inr tt,
     {| stdin := rest; clock_reads := clock_reads w1 |}).
Proof.
  intros Hc Hin Hk. unfold main_send.
  rewrite (io_bind_run _ _ _ _ _ _ Hc).
  destruct w1 as [lines n]. cbn [stdin clock_reads] in *. subst lines.
  rewrite !io_bind_print, io_bind_get_user_input, Hk.
  rewrite !emit_emit. cbv [io_print lift print emit fst snd map].
  rewrite <- !app_assoc. reflexivity.
Qed.

(** X13. The send flow hands the dispatch exactly what was typed: the
    message built from the text line, the channel the dictionary gives for
    the channel line (its name in the banner is the name the channel
    prints), and the recipient line as typed, with no default and no
    stripping.  What the dispatch prints ends the turn's output, and the
    turn returns whatever the dispatch reported. *)
Theorem main_send_dispatches (t k r : pystr) (rest : list pystr) (n : nat)
    (channel : Channel) (name : pystr) :
  channels !! answer (Some (py "1")) k = Some (channel, name) ->
  let run := main_send clock int
               {| stdin := py "1" :: t :: k :: r :: rest; clock_reads := n |} in
  let m := TextMessage (clock n)
             (answer (Some (py "Mensagem de teste")) t) None in
  snd (fst run) = inr tt
  /\ snd run = {| stdin := rest; clock_reads := S n |}
  /\ name = channel_name channel
  /\ exists before,
       fst (fst run)
       = before
         ++ Printed (newline :: py "=== Enviando via " ++ name ++ py " ===")
         :: map Printed (stdout (send_message_to_channel channel m r)).
Proof.
  intros Hk. cbv zeta. unfold main_send.
  destruct (create_text_run t (k :: r :: rest) n) as [ev Hc].
  rewrite (io_bind_run _ _ _ _ _ _ Hc).
  rewrite !io_bind_print, io_bind_get_user_input, Hk.
  rewrite io_bind_get_user_input, io_bind_print.
  change (answer None r) with r.
  rewrite !emit_emit. unfold lift, emit, stdout.
  destruct (send_cases channel
              (TextMessage (clock n)
                 (answer (Some (py "Mensagem de teste")) t) None) r)
    as [Hs | [msg Hs]];
    unfold send_message_to_channel; rewrite Hs;
    cbv [try_except report_error print fst snd];
    (repeat split; [by apply (channels_lookup _ _ _ Hk)|]);
    eexists; rewrite <- app_assoc; cbn [app]; rewrite app_assoc; reflexivity.
Qed.

End ShellFacts.

(** ** Closed instances of the further properties *)

Lemma whatsapp_recipients_pass_telegram_witness :
  snd (@send basic_tables WhatsAppChannel sample_text (py "+5511999998888"))
  = inr tt
  /\ snd (@send basic_tables TelegramChannel sample_video (py "+5511999998888"))
     = inr tt.
Proof.
  assert (Hw : snd (@send basic_tables WhatsAppChannel sample_text
                      (py "+5511999998888")) = inr tt)
    by (vm_compute; reflexivity).
  split; [exact Hw|].
  exact (@whatsapp_recipients_pass_telegram basic_tables _ _ _ Hw).
Defined.

Lemma telegram_recipients_pass_username_witness :
  snd (@send basic_tables TelegramChannel sample_text (py "@alice")) = inr tt
  /\ snd (@send basic_tables FacebookChannel sample_video (py "@alice")) = inr tt
  /\ snd (@send basic_tables InstagramChannel sample_video (py "@alice")) = inr tt.
Proof.
  assert (Ht : snd (@send basic_tables TelegramChannel sample_text
                      (py "@alice")) = inr tt)
    by (vm_compute; reflexivity).
  split; [exact Ht|].
  exact (@telegram_recipients_pass_username basic_tables _ sample_video _ Ht).
Defined.

Lemma padding_keeps_verdict_witness :
  forallb Py.isspace_char (py "  ") = true
  /\ forallb Py.isspace_char [9; 32] = true
  /\ (snd (@send basic_tables WhatsAppChannel sample_text
             (py "  " ++ py "5511999998888" ++ [9; 32])) = inr tt <->
      snd (@send basic_tables WhatsAppChannel sample_text
             (py "5511999998888")) = inr tt).
Proof.
  split; [reflexivity|]. split; [reflexivity|].
  apply (@padding_keeps_verdict basic_tables); reflexivity.
Defined.

Lemma get_user_input_default_witness :
  py "1" <> []
  /\ get_user_input (py "Escolha o canal (1-4)") (Some (py "1"))
       {| stdin := [] :: [py "@alice"]; clock_reads := 0 |}
     = ([Prompted (py "Escolha o canal (1-4) (Padrão: 1): ")], inr (py "1"),
        {| stdin := [py "@alice"]; clock_reads := 0 |}).
Proof.
  assert (Hd : py "1" <> []) by (vm_compute; discriminate).
  split; [exact Hd|].
  exact (proj1 (get_user_input_default (py "Escolha o canal (1-4)") (py "1")
                  [] [py "@alice"] 0 Hd)).
Defined.

Lemma create_rejects_unknown_type_witness :
  let run := create_message_from_input sample_clock sample_int
               {| stdin := [py "9"; py "hello"; py "0"]; clock_reads := 0 |} in
  py "9" <> []
  /\ snd (fst run) = inr None
  /\ snd run = {| stdin := [py "0"]; clock_reads := 0 |}.
Proof.
  intros run.
  assert (H0 : py "9" <> []) by (vm_compute; discriminate).
  split; [exact H0|].
  destruct (create_rejects_unknown_type sample_clock sample_int (py "9")
              (py "hello") [py "0"] 0 H0) as (Hr & Hw & _);
    try (vm_compute; discriminate).
  split; [exact Hr | exact Hw].
Defined.

Lemma main_terminates_witness :
  let w := {| stdin := [py "1"; py "3"; py "hello"; []; py "mp4"; py "abc";
                        py "2"; py "@bob"; py "7"; py "0"; py "unread"];
              clock_reads := 0 |} in
  (length (stdin w) < 20)%nat
  /\ @main_loop basic_tables sample_clock sample_int 20 w
     = @main basic_tables sample_clock sample_int w
  /\ snd (fst (@main basic_tables sample_clock sample_int w)) = inr (Some tt)
  /\ snd (@main basic_tables sample_clock sample_int w)
     = {| stdin := [py "unread"]; clock_reads := 1 |}.
Proof.
  intros w.
  assert (Hl : (length (stdin w) < 20)%nat) by (vm_compute; lia).
  split; [exact Hl|].
  split; [exact (proj1 (@main_terminates basic_tables sample_clock sample_int
                          20 w Hl))|].
  split; vm_compute; reflexivity.
Defined.

Lemma accepted_recipient_length_witness :
  snd (@send basic_tables InstagramChannel sample_text (py "  @alice ")) = inr tt
  /\ (1 <= length (Py.strip (py "  @alice ")) <= 50)%nat.
Proof.
  assert (Hs : snd (@send basic_tables InstagramChannel sample_text
                      (py "  @alice ")) = inr tt)
    by (vm_compute; reflexivity).
  split; [exact Hs|].
  exact (proj1 (@accepted_recipient_length basic_tables _ _ _ Hs)).
Defined.

Lemma main_send_unknown_channel_witness :
  let w := {| stdin := [py "2"; py "hello"; py "/tmp/a.jpg"; py "jpg";
                        py "7"; py "0"];
              clock_reads := 0 |} in
  let w1 := {| stdin := [py "7"; py "0"]; clock_reads := 1 |} in
  let photo := PhotoMessage (sample_clock 0) (py "hello") (py "/tmp/a.jpg")
                 (py "jpg") in
  let ev := fst (fst (create_message_from_input sample_clock sample_int w)) in
  create_message_from_input sample_clock sample_int w
  = (ev, inr (Some photo), w1)
  /\ channels !! answer (Some (py "1")) (py "7") = None
  /\ snd (fst (@main_send basic_tables sample_clock sample_int w)) = inr tt
  /\ snd (@main_send basic_tables sample_clock sample_int w)
     = {| stdin := [py "0"]; clock_reads := 1 |}
  /\ last (fst (fst (@main_send basic_tables sample_clock sample_int w)))
     = Some (Printed (py "[Erro] Opção de canal inválida.")).
Proof.
  intros w w1 photo ev.
  assert (Hc : create_message_from_input sample_clock sample_int w
               = (ev, inr (Some photo), w1))
    by (vm_compute; reflexivity).
  assert (Hk : channels !! answer (Some (py "1")) (py "7") = None)
    by (vm_compute; reflexivity).
  split; [exact Hc|]. split; [exact Hk|].
  rewrite (@main_send_unknown_channel basic_tables sample_clock sample_int
             w w1 ev photo (py "7") [py "0"] Hc eq_refl Hk).
  cbn [fst snd]. repeat split.
Defined.

Lemma main_send_dispatches_witness :
  let run := @main_send basic_tables sample_clock sample_int
               {| stdin := [py "1"; py "hello"; []; py " 12345 "; py "0"];
                  clock_reads := 0 |} in
  channels !! answer (Some (py "1")) [] = Some (WhatsAppChannel, py "WhatsApp")
  /\ snd (fst run) = inr tt
  /\ snd run = {| stdin := [py "0"]; clock_reads := 1 |}
  /\ last (fst (fst run))
     = Some (Printed (py "[Erro] destinatário inválido: Telefone inválido: ' 12345 '")).
Proof.
  intros run.
  assert (Hk : channels !! answer (Some (py "1")) []
               = Some (WhatsAppChannel, py "WhatsApp"))
    by (vm_compute; reflexivity).
  split; [exact Hk|].
  destruct (@main_send_dispatches basic_tables sample_clock sample_int
              (py "hello") [] (py " 12345 ") [py "0"] 0 _ _ Hk)
    as (Hr & Hw & _ & before & Hev).
  split; [exact Hr|]. split; [exact Hw|].
  fold run in Hev. rewrite Hev.
  rewrite last_app. vm_compute. reflexivity.
Defined.
